(** * A verification model of the YAML language service

    The development follows [src/languageservice/yamlLanguageService.ts]:
    the [LanguageService] object built by [getLanguageService], over the
    schema service and the four producers it wires together.  The classes
    the file imports ([YAMLSchemaService], [YAMLValidation],
    [YAMLCompletion], [YAMLHover], [YAMLDocumentSymbols]) are modelled from
    the specification of the engine; every such definition says so. *)

From Stdlib Require Import ZArith List String Ascii Lia.
From stdpp Require Import base option list gmap sets strings pretty.

Set Warnings "-register-all,-clear-no-such-hyp".
Open Scope string_scope.
Open Scope list_scope.

(* ================================================================== *)
(** * Positions, ranges and the parsed document *)
(* ================================================================== *)

(** A half-open offset range of the source text. *)
Record Range := mkRange { rStart : nat; rEnd : nat }.

#[global] Instance Range_eq_dec : EqDecision Range.
Proof. solve_decision. Defined.

(** [Position] of vscode-languageserver-types. *)
Record Position := mkPosition { line : nat; character : nat }.

Inductive ScalarValue :=
| VStr (s : string)
| VNum (z : Z)
| VBool (b : bool)
| VNull.

#[global] Instance ScalarValue_eq_dec : EqDecision ScalarValue.
Proof. solve_decision. Defined.

(** A mapping pair: its own range, the key, and the value node. *)
Record MappingPair (N : Type) := mkPair {
  pairRange : Range;
  pairKey : string;
  pairValue : N
}.
Arguments mkPair {N} _ _ _.
Arguments pairRange {N} _.
Arguments pairKey {N} _.
Arguments pairValue {N} _.

(** Modelled from the spec: the DocumentNode of section 3, the output of
    the parser collaborator: mapping, mapping pair, sequence, scalar and
    alias nodes, each with its range; a node may carry an anchor. *)
Inductive DocumentNode :=
| Mapping (rng : Range) (anchor : option string)
          (pairs : list (MappingPair DocumentNode))
| Sequence (rng : Range) (anchor : option string) (items : list DocumentNode)
| Scalar (rng : Range) (anchor : option string) (v : ScalarValue)
| Alias (rng : Range) (name : string).

Definition nodeRange (n : DocumentNode) : Range :=
  match n with
  | Mapping r _ _ | Sequence r _ _ | Scalar r _ _ | Alias r _ => r
  end.

Definition nodeAnchor (n : DocumentNode) : option string :=
  match n with
  | Mapping _ a _ | Sequence _ a _ | Scalar _ a _ => a
  | Alias _ _ => None
  end.

(** [TextDocument]: the identifier, the version, the text, and the tree the
    parser collaborator produced for that text. *)
Record TextDocument := mkTextDocument {
  docUri : string;
  docVersion : nat;
  docText : string;
  docRoot : DocumentNode
}.

(** One step of a path into a document: a mapping key or a sequence index. *)
Inductive Segment :=
| Key (k : string)
| Index (i : nat).

#[global] Instance Segment_eq_dec : EqDecision Segment.
Proof. solve_decision. Defined.

(** Every path that leads to a node of the document, the root's included. *)
Fixpoint nodePaths (n : DocumentNode) : list (list Segment) :=
  [] ::
  match n with
  | Mapping _ _ ps =>
      (fix pairsPaths (ps : list (MappingPair DocumentNode)) :=
         match ps with
         | [] => []
         | p :: rest =>
             map (cons (Key (pairKey p))) (nodePaths (pairValue p))
             ++ pairsPaths rest
         end) ps
  | Sequence _ _ xs =>
      (fix itemsPaths (i : nat) (xs : list DocumentNode) :=
         match xs with
         | [] => []
         | x :: rest =>
             map (cons (Index i)) (nodePaths x) ++ itemsPaths (S i) rest
         end) 0 xs
  | Scalar _ _ _ | Alias _ _ => []
  end.

(** The nesting depth of a document: the length of its longest path. *)
Definition nestingDepth (n : DocumentNode) : nat :=
  max_list (map length (nodePaths n)).


(* ================================================================== *)
(** * Symbols *)
(* ================================================================== *)

(** Modelled from the spec: the kind of a symbol (section 4.6), after the
    kind of the node it stands for. *)
Inductive SymbolKind :=
| SkModule | SkArray | SkString | SkNumber | SkBoolean | SkVariable.

Definition symbolKindOf (n : DocumentNode) : SymbolKind :=
  match n with
  | Mapping _ _ _ => SkModule
  | Sequence _ _ _ => SkArray
  | Scalar _ _ (VStr _) => SkString
  | Scalar _ _ (VNum _) => SkNumber
  | Scalar _ _ (VBool _) => SkBoolean
  | Scalar _ _ VNull => SkVariable
  | Alias _ _ => SkVariable
  end.

(** [DocumentSymbol]: the nested form. *)
Inductive DocumentSymbol :=
| mkSymbol (name : string) (kind : SymbolKind) (range : Range)
           (children : list DocumentSymbol).

Definition symbolName (s : DocumentSymbol) : string :=
  match s with mkSymbol n _ _ _ => n end.
Definition symbolChildren (s : DocumentSymbol) : list DocumentSymbol :=
  match s with mkSymbol _ _ _ c => c end.

(** [SymbolInformation]: the flat form, with the enclosing symbol's name. *)
Record SymbolInformation := mkSymbolInformation {
  siName : string;
  siKind : SymbolKind;
  siLocation : Range;
  siContainerName : option string
}.

(** Modelled from the spec: the symbol producer of section 4.6, a walk of
    the node tree that yields one symbol per mapping key and per sequence
    index, nested as the document is.  No schema is an argument. *)
Fixpoint symbolsOf (n : DocumentNode) : list DocumentSymbol :=
  match n with
  | Mapping _ _ ps =>
      (fix ofPairs (ps : list (MappingPair DocumentNode)) :=
         match ps with
         | [] => []
         | p :: rest =>
             mkSymbol (pairKey p) (symbolKindOf (pairValue p)) (pairRange p)
                      (symbolsOf (pairValue p))
             :: ofPairs rest
         end) ps
  | Sequence _ _ xs =>
      (fix ofItems (i : nat) (xs : list DocumentNode) :=
         match xs with
         | [] => []
         | x :: rest =>
             mkSymbol (pretty i) (symbolKindOf x) (nodeRange x) (symbolsOf x)
             :: ofItems (S i) rest
         end) 0 xs
  | Scalar _ _ _ | Alias _ _ => []
  end.

(** The depth of a symbol hierarchy: 0 for no symbol, one more than the
    deepest child otherwise. *)
Fixpoint symbolDepth (s : DocumentSymbol) : nat :=
  match s with
  | mkSymbol _ _ _ cs => S (max_list (map symbolDepth cs))
  end.

Definition hierarchyDepth (l : list DocumentSymbol) : nat :=
  max_list (map symbolDepth l).

(** Modelled from the spec: the flat form of section 4.6: every symbol
    of the hierarchy in document order, each with the name of the symbol
    that contains it. *)
Fixpoint flattenSymbol (container : option string) (s : DocumentSymbol)
  : list SymbolInformation :=
  match s with
  | mkSymbol n k r cs =>
      mkSymbolInformation n k r container
      :: flat_map (flattenSymbol (Some n)) cs
  end.

Definition flattenSymbols (l : list DocumentSymbol) : list SymbolInformation :=
  flat_map (flattenSymbol None) l.

(* ================================================================== *)
(** * Schemas, references and the schema store *)
(* ================================================================== *)

(** Modelled from the spec: what resolution records besides the graph
    (sections 4.2 and 7).  A circular reference is a recorded fact; the
    two others are the resolution errors. *)
Inductive ResolutionNote :=
| CircularReference (uri : string) (path : list string)
| ReferenceNotFound (uri : string) (path : list string)
| SchemaUnavailable (uri : string) (message : string).

#[global] Instance ResolutionNote_eq_dec : EqDecision ResolutionNote.
Proof. solve_decision. Defined.

Definition isResolutionError (n : ResolutionNote) : bool :=
  match n with
  | CircularReference _ _ => false
  | ReferenceNotFound _ _ | SchemaUnavailable _ _ => true
  end.

(** Modelled from the spec: schema content is a tree of JSON-like values
    (section 3).  A resolved graph has two more kinds of node: the
    circular-reference placeholder and the node that stands for a
    reference that could not be resolved. *)
Inductive JSONSchema :=
| JNull
| JBool (b : bool)
| JNum (z : Z)
| JStr (s : string)
| JArr (items : list JSONSchema)
| JObj (fields : list (string * JSONSchema))
| JCircular (uri : string) (path : list string)
| JUnresolved (e : ResolutionNote).

(** The value of the first field named [k]. *)
Fixpoint field (k : string) (fields : list (string * JSONSchema))
  : option JSONSchema :=
  match fields with
  | [] => None
  | (k', v) :: rest => if decide (k' = k) then Some v else field k rest
  end.

(** The element whose index is written [seg], counting from [i]. *)
Fixpoint element (seg : string) (i : nat) (items : list JSONSchema)
  : option JSONSchema :=
  match items with
  | [] => None
  | x :: rest => if decide (pretty i = seg) then Some x else element seg (S i) rest
  end.

(** Modelled from the spec: following the pointer path of a reference
    into schema content (section 4.2).  Indices are written in decimal,
    without leading zeros. *)
Fixpoint navigate (path : list string) (s : JSONSchema) : option JSONSchema :=
  match path with
  | [] => Some s
  | seg :: rest =>
      match s with
      | JObj fields =>
          match field seg fields with
          | Some v => navigate rest v
          | None => None
          end
      | JArr items =>
          match element seg 0 items with
          | Some v => navigate rest v
          | None => None
          end
      | _ => None
      end
  end.

Fixpoint height (s : JSONSchema) : nat :=
  match s with
  | JArr items => S (max_list (map height items))
  | JObj fields =>
      S ((fix ofFields (fs : list (string * JSONSchema)) :=
            match fs with
            | [] => 0
            | (_, v) :: rest => Nat.max (height v) (ofFields rest)
            end) fields)
  | _ => 0
  end.

(** Every pointer path that leads somewhere in the content. *)
Fixpoint schemaPaths (s : JSONSchema) : list (list string) :=
  [] ::
  match s with
  | JObj fields =>
      (fix ofFields (fs : list (string * JSONSchema)) :=
         match fs with
         | [] => []
         | (k, v) :: rest => map (cons k) (schemaPaths v) ++ ofFields rest
         end) fields
  | JArr items =>
      (fix ofItems (i : nat) (xs : list JSONSchema) :=
         match xs with
         | [] => []
         | x :: rest => map (cons (pretty i)) (schemaPaths x) ++ ofItems (S i) rest
         end) 0 items
  | _ => []
  end.

(** ** Reference strings *)

(** [cutAt c s]: the text before the first [c] and the text after it. *)
Fixpoint cutAt (c : ascii) (s : string) : string * string :=
  match s with
  | EmptyString => (EmptyString, EmptyString)
  | String a rest =>
      if Ascii.eqb a c then (EmptyString, rest)
      else let '(before, after) := cutAt c rest in (String a before, after)
  end.

(** [splitOn c s]: the pieces of [s] between the occurrences of [c]. *)
Fixpoint splitOn (c : ascii) (s : string) : list string :=
  match s with
  | EmptyString => [EmptyString]
  | String a rest =>
      match splitOn c rest with
      | [] => [EmptyString]
      | piece :: pieces =>
          if Ascii.eqb a c then EmptyString :: piece :: pieces
          else String a piece :: pieces
      end
  end.

(** Modelled from the spec: a reference [uri#/a/b] parsed into the
    target URI, absent when the reference stays in the current document,
    and the pointer path (section 4.2). *)
Definition parseRef (ref : string) : option string * list string :=
  let '(uri, fragment) := cutAt "#"%char ref in
  let path :=
    match splitOn "/"%char fragment with
    | EmptyString :: segments => segments
    | segments => segments
    end in
  (match uri with EmptyString => None | _ => Some uri end, path).

(** The reference keyword of a schema object, when it has one. *)
Definition refOf (fields : list (string * JSONSchema)) : option string :=
  match field "$ref" fields with
  | Some (JStr r) => Some r
  | _ => None
  end.

(** ** The fetch capability and the store *)

(** A promise that has settled: the asynchronous boundary of the service,
    with its two outcomes. *)
Inductive Promise (A : Type) :=
| Fulfilled (value : A)
| Rejected (reason : string).
Arguments Fulfilled {A} _.
Arguments Rejected {A} _.

(** [SchemaRequestService]: the injected fetch capability.  The URIs it
    can serve are finitely many; every other request is rejected with a
    displayable error string. *)
Record SchemaRequestService := mkSchemaRequestService {
  served : gmap string JSONSchema;
  failureMessage : string -> string
}.

Definition request (rs : SchemaRequestService) (uri : string)
  : Promise JSONSchema :=
  match served rs !! uri with
  | Some content => Fulfilled content
  | None => Rejected (failureMessage rs uri)
  end.

(** Modelled from the spec: a SchemaDocument is raw content and its URI. *)
Record SchemaDocument := mkSchemaDocument {
  sdUri : string;
  sdContent : JSONSchema
}.

(** Modelled from the spec: the Schema Store of section 4.1, the registry
    of inline documents over the fetch capability. *)
Record SchemaStore := mkSchemaStore {
  registered : gmap string JSONSchema;
  requestService : SchemaRequestService
}.

(** Modelled from the spec: [resolveURI] of section 4.1.  A registered
    document wins; a rejected fetch is wrapped into [SchemaUnavailable]. *)
Definition resolveURI (store : SchemaStore) (uri : string)
  : JSONSchema + ResolutionNote :=
  match registered store !! uri with
  | Some content => inl content
  | None =>
      match request (requestService store) uri with
      | Fulfilled content => inl content
      | Rejected message => inr (SchemaUnavailable uri message)
      end
  end.

(** The document a URI stands for while [doc] is being resolved: [doc]
    itself under its own URI, the store's document otherwise. *)
Definition documentFor (doc : SchemaDocument) (store : SchemaStore)
  (uri : string) : JSONSchema + ResolutionNote :=
  if decide (uri = sdUri doc) then inl (sdContent doc) else resolveURI store uri.

(** ** The reference resolver *)

(** Modelled from the spec: the state of a (URI, pointer path) pair in
    the memo table (sections 4.2 and 9); a pair that is not in the table
    is unresolved. *)
Inductive MemoState :=
| Resolving
| Resolved (s : JSONSchema).

(** Threading the memo table and the notes through a list, in order. *)
Fixpoint resolveList {A B : Type}
  (f : gmap (string * list string) MemoState -> A ->
       option (B * gmap (string * list string) MemoState * list ResolutionNote))
  (memo : gmap (string * list string) MemoState) (l : list A)
  : option (list B * gmap (string * list string) MemoState * list ResolutionNote) :=
  match l with
  | [] => Some ([], memo, [])
  | x :: rest =>
      match f memo x with
      | None => None
      | Some (y, memo1, notes1) =>
          match resolveList f memo1 rest with
          | None => None
          | Some (ys, memo2, notes2) => Some (y :: ys, memo2, notes1 ++ notes2)
          end
      end
  end.

(** Modelled from the spec: the Reference Resolver of section 4.2, a
    depth-first walk.  At a reference the memo table decides: an entry
    that is being resolved gives the circular placeholder and a note; a
    resolved entry is shared; otherwise the entry is marked, the target
    document fetched, the pointed node resolved, and the entry set to the
    result.  A fetch that fails or a pointer that leads nowhere is noted
    and the walk goes on.  [fuel] bounds the depth of the walk; [None]
    means the bound was reached. *)
Fixpoint resolveNode (fuel : nat) (lookup : string -> JSONSchema + ResolutionNote)
  (current : string) (memo : gmap (string * list string) MemoState)
  (s : JSONSchema)
  : option (JSONSchema * gmap (string * list string) MemoState
            * list ResolutionNote) :=
  match fuel with
  | 0 => None
  | S fuel' =>
      match s with
      | JObj fields =>
          match refOf fields with
          | Some ref =>
              let '(targetURI, path) := parseRef ref in
              let target := default current targetURI in
              match memo !! (target, path) with
              | Some Resolving =>
                  Some (JCircular target path, memo,
                        [CircularReference target path])
              | Some (Resolved r) => Some (r, memo, [])
              | None =>
                  let memo1 := <[(target, path) := Resolving]> memo in
                  match lookup target with
                  | inr e =>
                      Some (JUnresolved e,
                            <[(target, path) := Resolved (JUnresolved e)]> memo1,
                            [e])
                  | inl content =>
                      match navigate path content with
                      | None =>
                          let e := ReferenceNotFound target path in
                          Some (JUnresolved e,
                                <[(target, path) := Resolved (JUnresolved e)]> memo1,
                                [e])
                      | Some pointed =>
                          match resolveNode fuel' lookup target memo1 pointed with
                          | None => None
                          | Some (r, memo2, notes) =>
                              Some (r, <[(target, path) := Resolved r]> memo2, notes)
                          end
                      end
                  end
              end
          | None =>
              match
                resolveList
                  (fun m (kv : string * JSONSchema) =>
                     match resolveNode fuel' lookup current m (snd kv) with
                     | None => None
                     | Some (r, m', notes) => Some ((fst kv, r), m', notes)
                     end)
                  memo fields
              with
              | None => None
              | Some (fields', memo', notes) => Some (JObj fields', memo', notes)
              end
          end
      | JArr items =>
          match resolveList (resolveNode fuel' lookup current) memo items with
          | None => None
          | Some (items', memo', notes) => Some (JArr items', memo', notes)
          end
      | _ => Some (s, memo, [])
      end
  end.

(** The URIs a resolution can reach: the document's own and the store's. *)
Definition knownURIs (doc : SchemaDocument) (store : SchemaStore) : list string :=
  sdUri doc
  :: map fst (map_to_list (registered store))
  ++ map fst (map_to_list (served (requestService store))).

(** Every (URI, pointer path) pair that names a node of a known document. *)
Definition knownTargets (doc : SchemaDocument) (store : SchemaStore)
  : gset (string * list string) :=
  list_to_set
    (flat_map
       (fun uri =>
          match documentFor doc store uri with
          | inl content => map (pair uri) (schemaPaths content)
          | inr _ => []
          end)
       (knownURIs doc store)).

Definition maxHeight (doc : SchemaDocument) (store : SchemaStore) : nat :=
  max_list
    (map
       (fun uri =>
          match documentFor doc store uri with
          | inl content => height content
          | inr _ => 0
          end)
       (knownURIs doc store)).

(** The depth the walk of [doc] cannot exceed: between two references it
    descends through one document, and the references on one chain are
    distinct targets. *)
Definition resolveFuel (doc : SchemaDocument) (store : SchemaStore) : nat :=
  S (size (knownTargets doc store)) * S (maxHeight doc store).

(** Modelled from the spec: a ResolvedSchema is the graph and what
    resolution recorded; [touched] are the URIs of its resolution chain. *)
Record ResolvedSchema := mkResolvedSchema {
  rsSchema : JSONSchema;
  rsNotes : list ResolutionNote;
  rsTouched : gset string
}.

Definition rsErrors (r : ResolvedSchema) : list ResolutionNote :=
  filter (fun n => isResolutionError n = true) (rsNotes r).

(** Modelled from the spec: [resolve(SchemaDocument, store)] of section
    4.2.  The document is on its own resolution chain from the start. *)
Definition resolve (doc : SchemaDocument) (store : SchemaStore)
  : option ResolvedSchema :=
  match
    resolveNode (resolveFuel doc store) (documentFor doc store) (sdUri doc)
                {[ (sdUri doc, []) := Resolving ]} (sdContent doc)
  with
  | None => None
  | Some (s, memo, notes) =>
      Some (mkResolvedSchema s notes
              (list_to_set (map (fun kv => fst (fst kv)) (map_to_list memo))))
  end.


(* ================================================================== *)
(** * The matching engine *)
(* ================================================================== *)

(** Modelled from the spec: the kinds of problem a match or a structural
    check reports (sections 4.3, 4.4 and 7). *)
Inductive ProblemKind :=
| TypeMismatch
| MissingProperty
| EnumMismatch
| ConstMismatch
| BoundViolation
| UnknownProperty
| ForbiddenMatch
| FalseSchema
| AmbiguousUnion
| DeprecatedUsage
| UnavailableSchema
| DanglingReference
| DuplicateKey
| UnresolvedAlias.

#[global] Instance ProblemKind_eq_dec : EqDecision ProblemKind.
Proof. solve_decision. Defined.

Record Problem := mkProblem {
  pKind : ProblemKind;
  pRange : Range;
  pMessage : string
}.

(** Modelled from the spec: the MatchResult of section 3.  [mrProblems]
    are the problems the fragment produces if selected, [mrAccounted] the
    keys and elements it accounts for, [mrApplied] the schema fragments
    that apply, by the path of the node they apply to, and [mrSuppressed]
    the problems of rejected branches, kept for summaries. *)
Record MatchResult := mkMatchResult {
  mrProblems : list Problem;
  mrAccounted : nat;
  mrApplied : list (list Segment * JSONSchema);
  mrSuppressed : list Problem
}.

Definition emptyMatch : MatchResult := mkMatchResult [] 0 [] [].

Definition mergeResults (a b : MatchResult) : MatchResult :=
  mkMatchResult (mrProblems a ++ mrProblems b)
                (mrAccounted a + mrAccounted b)
                (mrApplied a ++ mrApplied b)
                (mrSuppressed a ++ mrSuppressed b).

Definition mergeAll (l : list MatchResult) : MatchResult :=
  fold_right mergeResults emptyMatch l.

Definition accountFor (k : nat) (r : MatchResult) : MatchResult :=
  mkMatchResult (mrProblems r) (k + mrAccounted r) (mrApplied r) (mrSuppressed r).

Definition problemAt (kind : ProblemKind) (r : Range) (message : string)
  : MatchResult :=
  mkMatchResult [mkProblem kind r message] 0 [] [].

(** Modelled from the spec: the weights of the fitness heuristic.  The
    spec fixes only that a type mismatch weighs more than a missing
    property. *)
Class ScoringWeights := {
  penalty : ProblemKind -> Z;
  penalty_type_mismatch : (penalty MissingProperty < penalty TypeMismatch)%Z
}.

(** ** Reading a node *)

Definition pairsOf (n : DocumentNode) : list (MappingPair DocumentNode) :=
  match n with
  | Mapping _ _ ps => ps
  | _ => []
  end.

Definition itemsOf (n : DocumentNode) : list DocumentNode :=
  match n with
  | Sequence _ _ xs => xs
  | _ => []
  end.

(** The value of the first pair whose key is [k]. *)
Definition childOf (k : string) (n : DocumentNode) : option DocumentNode :=
  pairValue <$> List.find (fun p => bool_decide (pairKey p = k)) (pairsOf n).

Definition childCount (n : DocumentNode) : nat :=
  length (pairsOf n) + length (itemsOf n).

(** Whether a node has the type a schema names.  An alias stands for a
    node the match does not look into: every type accepts it. *)
Definition typeAccepts (ty : string) (n : DocumentNode) : bool :=
  match n with
  | Alias _ _ => true
  | Mapping _ _ _ => bool_decide (ty = "object")
  | Sequence _ _ _ => bool_decide (ty = "array")
  | Scalar _ _ (VStr _) => bool_decide (ty = "string")
  | Scalar _ _ (VNum _) => bool_decide (ty = "number") || bool_decide (ty = "integer")
  | Scalar _ _ (VBool _) => bool_decide (ty = "boolean")
  | Scalar _ _ VNull => bool_decide (ty = "null")
  end.

(** Whether a node is the scalar a schema value writes. *)
Definition valueAccepts (j : JSONSchema) (n : DocumentNode) : bool :=
  match n, j with
  | Alias _ _, _ => true
  | Scalar _ _ (VStr s), JStr s' => bool_decide (s = s')
  | Scalar _ _ (VNum z), JNum z' => bool_decide (z = z')
  | Scalar _ _ (VBool b), JBool b' => bool_decide (b = b')
  | Scalar _ _ VNull, JNull => true
  | _, _ => false
  end.

Definition stringsOf (l : list JSONSchema) : list string :=
  flat_map (fun j => match j with JStr s => [s] | _ => [] end) l.

Definition propertyNames (fields : list (string * JSONSchema)) : list string :=
  match field "properties" fields with
  | Some (JObj props) => map fst props
  | _ => []
  end.

(** ** The keywords that look at one node only *)

(** Modelled from the spec: a scalar against [type], [enum], [const] and
    the numeric bounds, a mapping against [required] (section 4.3). *)
Definition checkKeyword (k : string) (v : JSONSchema) (n : DocumentNode)
  : list Problem :=
  let here := nodeRange n in
  if decide (k = "type") then
    match v with
    | JStr ty =>
        if typeAccepts ty n then []
        else [mkProblem TypeMismatch here ("Incorrect type. Expected " +:+ ty)]
    | JArr tys =>
        if existsb (fun ty => typeAccepts ty n) (stringsOf tys) then []
        else [mkProblem TypeMismatch here "Incorrect type. Expected one of the listed types"]
    | _ => []
    end
  else if decide (k = "enum") then
    match v with
    | JArr values =>
        if existsb (fun j => valueAccepts j n) values then []
        else [mkProblem EnumMismatch here "Value is not accepted. Valid values are listed"]
    | _ => []
    end
  else if decide (k = "const") then
    if valueAccepts v n then []
    else [mkProblem ConstMismatch here "Value must be the constant"]
  else if decide (k = "minimum") then
    match v, n with
    | JNum m, Scalar _ _ (VNum z) =>
        if (z <? m)%Z then [mkProblem BoundViolation here "Value is below the minimum"]
        else []
    | _, _ => []
    end
  else if decide (k = "maximum") then
    match v, n with
    | JNum m, Scalar _ _ (VNum z) =>
        if (m <? z)%Z then [mkProblem BoundViolation here "Value is above the maximum"]
        else []
    | _, _ => []
    end
  else if decide (k = "required") then
    match v, n with
    | JArr names, Mapping _ _ ps =>
        flat_map
          (fun name =>
             if existsb (fun p => bool_decide (pairKey p = name)) ps then []
             else [mkProblem MissingProperty here ("Missing property " +:+ name)])
          (stringsOf names)
    | _, _ => []
    end
  else if decide (k = "deprecated") then
    match v with
    | JBool true => [mkProblem DeprecatedUsage here "This keyword is deprecated"]
    | _ => []
    end
  else [].

(** ** Scoring and selection *)

Section Scoring.
Context {weights : ScoringWeights}.

(** Modelled from the spec: the fitness score of section 4.3: what the
    fragment accounts for, less a penalty per problem. *)
Definition score (r : MatchResult) : Z :=
  (Z.of_nat (mrAccounted r)
   - fold_right (fun p acc => penalty (pKind p) + acc) 0 (mrProblems r))%Z.

(** The best branch so far, replaced only by a strictly better one. *)
Fixpoint scanBest (best : nat * MatchResult) (i : nat) (rs : list MatchResult)
  : nat * MatchResult :=
  match rs with
  | [] => best
  | r :: rest =>
      scanBest (if (score (snd best) <? score r)%Z then (i, r) else best)
               (S i) rest
  end.

(** Modelled from the spec: the selected branch, by index and result. *)
Definition selectBest (rs : list MatchResult) : option (nat * MatchResult) :=
  match rs with
  | [] => None
  | r :: rest => Some (scanBest (0, r) 1 rest)
  end.

Definition zeroProblem (r : MatchResult) : bool :=
  match mrProblems r with [] => true | _ => false end.

(** The problems of every branch but the [i]-th. *)
Fixpoint rejectedProblems (i : nat) (rs : list MatchResult) : list Problem :=
  match rs with
  | [] => []
  | r :: rest =>
      match i with
      | 0 => flat_map mrProblems rest
      | S i' => mrProblems r ++ rejectedProblems i' rest
      end
  end.

(** Modelled from the spec: [anyOf] and [oneOf] of section 4.3, over the
    results of the branches in declaration order.  [exclusive] is set for
    [oneOf], which adds a problem of its own kind when more than one
    branch matches with no problem. *)
Definition matchAlternatives (exclusive : bool) (where_ : Range)
  (rs : list MatchResult) : MatchResult :=
  match selectBest rs with
  | None => emptyMatch
  | Some (i, best) =>
      mkMatchResult
        (mrProblems best
         ++ (if exclusive && Nat.ltb 1 (length (filter (fun r => zeroProblem r = true) rs))
             then [mkProblem AmbiguousUnion where_
                             "Matches multiple schemas when only one must validate"]
             else []))
        (mrAccounted best)
        (mrApplied best)
        (mrSuppressed best ++ rejectedProblems i rs)
  end.

(** Modelled from the spec: the result for a node a placeholder stands
    against.  A circular placeholder is a full match with no problem; an
    unresolved reference gives one problem at the node. *)
Definition placeholderMatch (e : ResolutionNote) (n : DocumentNode) : MatchResult :=
  match e with
  | CircularReference _ _ => accountFor (childCount n) emptyMatch
  | ReferenceNotFound uri _ =>
      problemAt DanglingReference (nodeRange n)
                ("Unable to resolve a reference into " +:+ uri)
  | SchemaUnavailable uri message =>
      problemAt UnavailableSchema (nodeRange n)
                ("Unable to load schema from " +:+ uri +:+ ": " +:+ message)
  end.

(** The results of matching the items of a sequence against the schemas
    of a positional list, index by index from [i] on, as far as both go. *)
Fixpoint positional {A : Type} (f : JSONSchema -> nat -> DocumentNode -> A)
  (i : nat) (ss : list JSONSchema) (xs : list DocumentNode) : list A :=
  match ss, xs with
  | s1 :: ss', x :: xs' => f s1 i x :: positional f (S i) ss' xs'
  | _, _ => []
  end.

(** The result of matching the items of a sequence one by one from index
    [i] on. *)
Fixpoint indexed {A : Type} (f : nat -> DocumentNode -> A) (i : nat)
  (xs : list DocumentNode) : list A :=
  match xs with
  | [] => []
  | x :: rest => f i x :: indexed f (S i) rest
  end.

(** What the scan knows of the best branch after the branches [seen]:
    it is one of them, none scores higher, and every earlier one scores
    lower. *)
Definition bestOf (seen : list MatchResult) (best : nat * MatchResult) : Prop :=
  seen !! fst best = Some (snd best)
  /\ (forall j r, seen !! j = Some r -> (score r <= score (snd best))%Z)
  /\ (forall j r, j < fst best -> seen !! j = Some r -> (score r < score (snd best))%Z).

(** Modelled from the spec: one keyword of a schema object against a
    node (section 4.3): [properties] and [additionalProperties] against
    the pairs of a mapping, [items] and [additionalItems] against the
    elements of a sequence, the composition keywords against the node
    itself, and the keywords of [checkKeyword].  [recur] matches a
    sub-schema; [fields] are the fields of the object the keyword stands
    in.  The keywords [pattern] and [patternProperties] need a
    regular-expression engine and are not covered. *)
Definition matchKeyword
  (recur : JSONSchema -> list Segment -> DocumentNode -> MatchResult)
  (fields : list (string * JSONSchema)) (k : string) (v : JSONSchema)
  (path : list Segment) (n : DocumentNode) : MatchResult :=
  if decide (k = "properties") then
    match v with
    | JObj props =>
        mergeAll
          (map
             (fun kv =>
                match childOf (fst kv) n with
                | Some c => accountFor 1 (recur (snd kv) (path ++ [Key (fst kv)]) c)
                | None => emptyMatch
                end)
             props)
    | _ => emptyMatch
    end
  else if decide (k = "additionalProperties") then
    mergeAll
      (map
         (fun p =>
            match v with
            | JBool false =>
                problemAt UnknownProperty (pairRange p)
                  ("Property " +:+ pairKey p +:+ " is not allowed")
            | _ =>
                accountFor 1 (recur v (path ++ [Key (pairKey p)]) (pairValue p))
            end)
         (filter (fun p => pairKey p ∉ propertyNames fields) (pairsOf n)))
  else if decide (k = "items") then
    match v with
    | JArr schemas =>
        mergeAll
          (positional
             (fun s1 i x => accountFor 1 (recur s1 (path ++ [Index i]) x))
             0 schemas (itemsOf n))
    | _ =>
        mergeAll
          (indexed (fun i x => accountFor 1 (recur v (path ++ [Index i]) x))
                   0 (itemsOf n))
    end
  else if decide (k = "additionalItems") then
    match field "items" fields with
    | Some (JArr schemas) =>
        mergeAll
          (indexed (fun i x => accountFor 1 (recur v (path ++ [Index i]) x))
                   (length schemas) (drop (length schemas) (itemsOf n)))
    | _ => emptyMatch
    end
  else if decide (k = "allOf") then
    match v with
    | JArr branches => mergeAll (map (fun b => recur b path n) branches)
    | _ => emptyMatch
    end
  else if decide (k = "anyOf") then
    match v with
    | JArr branches =>
        matchAlternatives false (nodeRange n) (map (fun b => recur b path n) branches)
    | _ => emptyMatch
    end
  else if decide (k = "oneOf") then
    match v with
    | JArr branches =>
        matchAlternatives true (nodeRange n) (map (fun b => recur b path n) branches)
    | _ => emptyMatch
    end
  else if decide (k = "not") then
    let r := recur v path n in
    if zeroProblem r
    then problemAt ForbiddenMatch (nodeRange n) "Matches a schema that is not allowed"
    else mkMatchResult [] 0 [] (mrProblems r)
  else mkMatchResult (checkKeyword k v n) 0 [] [].

(** Modelled from the spec: [match(DocumentNode, ResolvedSchema)] of
    section 4.3.  A schema object applies to the node and every keyword
    of it is matched, in order; a placeholder is matched as
    [placeholderMatch] says; the schema [false] accepts nothing, and
    every other value accepts everything. *)
Fixpoint matchNode (s : JSONSchema) (path : list Segment) (n : DocumentNode)
  {struct s} : MatchResult :=
  match s with
  | JCircular u p => placeholderMatch (CircularReference u p) n
  | JUnresolved e => placeholderMatch e n
  | JBool false =>
      problemAt FalseSchema (nodeRange n) "Matches a schema that is not allowed"
  | JObj fields =>
      mergeResults
        (mkMatchResult [] 0 [(path, s)] [])
        (mergeAll
           (map (fun kv => matchKeyword matchNode fields (fst kv) (snd kv) path n)
                fields))
  | _ => emptyMatch
  end.

End Scoring.

(* ================================================================== *)
(** * The validation, hover and completion producers *)
(* ================================================================== *)

Inductive DiagnosticSeverity :=
| SeverityError
| SeverityWarning
| SeverityInformation
| SeverityHint.

#[global] Instance DiagnosticSeverity_eq_dec : EqDecision DiagnosticSeverity.
Proof. solve_decision. Defined.

(** [Diagnostic] of vscode-languageserver-types; [dCode] is the kind of
    problem it reports. *)
Record Diagnostic := mkDiagnostic {
  dRange : Range;
  dSeverity : DiagnosticSeverity;
  dCode : ProblemKind;
  dMessage : string
}.

(** Modelled from the spec: the severities of section 4.4 and 7: errors
    for violations, a warning for what policy may allow, information for
    deprecated keywords and for references that could not be resolved. *)
Definition severityOf (k : ProblemKind) : DiagnosticSeverity :=
  match k with
  | UnknownProperty | AmbiguousUnion => SeverityWarning
  | DeprecatedUsage | UnavailableSchema | DanglingReference => SeverityInformation
  | _ => SeverityError
  end.

Definition toDiagnostic (p : Problem) : Diagnostic :=
  mkDiagnostic (pRange p) (severityOf (pKind p)) (pKind p) (pMessage p).


(** Modelled from the spec: duplicate mapping keys (section 4.4): every
    key of a mapping that an earlier pair of the same mapping has. *)
Fixpoint duplicateKeyProblems (n : DocumentNode) : list Problem :=
  match n with
  | Mapping _ _ ps =>
      (fix walk (seen : list string) (ps : list (MappingPair DocumentNode)) :=
         match ps with
         | [] => []
         | p :: rest =>
             (if bool_decide (pairKey p ∈ seen)
              then [mkProblem DuplicateKey (pairRange p)
                              ("Duplicate key " +:+ pairKey p)]
              else [])
             ++ duplicateKeyProblems (pairValue p)
             ++ walk (pairKey p :: seen) rest
         end) [] ps
  | Sequence _ _ xs => flat_map duplicateKeyProblems xs
  | Scalar _ _ _ | Alias _ _ => []
  end.

Definition withAnchor (a : option string) (seen : list string) : list string :=
  match a with
  | Some name => name :: seen
  | None => seen
  end.

(** Modelled from the spec: unresolvable alias references (section 4.4):
    every alias whose anchor no earlier node of the document carries;
    [seen] are the anchors met so far, in document order. *)
Fixpoint aliasProblems (n : DocumentNode) (seen : list string)
  : list Problem * list string :=
  match n with
  | Alias r name =>
      (if bool_decide (name ∈ seen) then []
       else [mkProblem UnresolvedAlias r ("Unresolved alias " +:+ name)],
       seen)
  | Scalar _ a _ => ([], withAnchor a seen)
  | Mapping _ a ps =>
      (fix walk (ps : list (MappingPair DocumentNode)) (seen : list string) :=
         match ps with
         | [] => ([], seen)
         | p :: rest =>
             let '(here, seen1) := aliasProblems (pairValue p) seen in
             let '(later, seen2) := walk rest seen1 in
             (here ++ later, seen2)
         end) ps (withAnchor a seen)
  | Sequence _ a xs =>
      (fix walk (xs : list DocumentNode) (seen : list string) :=
         match xs with
         | [] => ([], seen)
         | x :: rest =>
             let '(here, seen1) := aliasProblems x seen in
             let '(later, seen2) := walk rest seen1 in
             (here ++ later, seen2)
         end) xs (withAnchor a seen)
  end.

(** Modelled from the spec: the structural checks of section 4.4, which
    no schema takes part in. *)
Definition structuralProblems (root : DocumentNode) : list Problem :=
  duplicateKeyProblems root ++ fst (aliasProblems root []).

Definition structuralDiagnostics (root : DocumentNode) : list Diagnostic :=
  map toDiagnostic (structuralProblems root).

Section Producers.
Context {weights : ScoringWeights}.

Definition schemaProblems (root : DocumentNode) (schema : ResolvedSchema)
  : list Problem :=
  mrProblems (matchNode (rsSchema schema) [] root).

Definition schemaDiagnostics (root : DocumentNode) (schema : ResolvedSchema)
  : list Diagnostic :=
  map toDiagnostic (schemaProblems root schema).

(** Modelled from the spec: [validate(rootNode, [ResolvedSchema])] of
    section 4.4: the structural checks, and for every candidate root
    schema the problems of the match, in one stream. *)
Definition validateDocument (root : DocumentNode) (schemas : list ResolvedSchema)
  : list Diagnostic :=
  structuralDiagnostics root ++ flat_map (schemaDiagnostics root) schemas.

(** ** Looking a node up *)

(** The cursor is in a node from its first offset to its end, the end
    included: text is typed at the end of a node. *)
Definition encloses (r : Range) (offset : nat) : bool :=
  Nat.leb (rStart r) offset && Nat.leb offset (rEnd r).

(** The innermost node that encloses [offset], with its path. *)
Fixpoint nodeAt (n : DocumentNode) (path : list Segment) (offset : nat)
  : option (list Segment * DocumentNode) :=
  if encloses (nodeRange n) offset then
    match
      match n with
      | Mapping _ _ ps =>
          (fix first (ps : list (MappingPair DocumentNode)) :=
             match ps with
             | [] => None
             | p :: rest =>
                 match nodeAt (pairValue p) (path ++ [Key (pairKey p)]) offset with
                 | Some found => Some found
                 | None => first rest
                 end
             end) ps
      | Sequence _ _ xs =>
          (fix first (i : nat) (xs : list DocumentNode) :=
             match xs with
             | [] => None
             | x :: rest =>
                 match nodeAt x (path ++ [Index i]) offset with
                 | Some found => Some found
                 | None => first (S i) rest
                 end
             end) 0 xs
      | Scalar _ _ _ | Alias _ _ => None
      end
    with
    | Some found => Some found
    | None => Some (path, n)
    end
  else None.

(** The node a path leads to. *)
Fixpoint nodeAtPath (path : list Segment) (n : DocumentNode) : option DocumentNode :=
  match path with
  | [] => Some n
  | Key k :: rest =>
      match childOf k n with
      | Some c => nodeAtPath rest c
      | None => None
      end
  | Index i :: rest =>
      match itemsOf n !! i with
      | Some c => nodeAtPath rest c
      | None => None
      end
  end.

(** The schema fragments the match selects for the node at [path]. *)
Definition appliedAt (root : DocumentNode) (schemas : list ResolvedSchema)
  (path : list Segment) : list JSONSchema :=
  flat_map
    (fun schema =>
       flat_map
         (fun entry => if decide (fst entry = path) then [snd entry] else [])
         (mrApplied (matchNode (rsSchema schema) [] root)))
    schemas.

(** ** Hover *)

Record Hover := mkHover {
  hoverContents : string;
  hoverRange : Range
}.

(** The descriptive text of a fragment: its description, else its title. *)
Definition describe (s : JSONSchema) : option string :=
  match s with
  | JObj fields =>
      match field "description" fields with
      | Some (JStr text) => Some text
      | _ =>
          match field "title" fields with
          | Some (JStr text) => Some text
          | _ => None
          end
      end
  | _ => None
  end.

(** Modelled from the spec: the hover producer of section 4.6: the text
    of the first selected fragment at the node under the cursor that has
    one; nothing when no schema applies. *)
Definition hoverAt (root : DocumentNode) (schemas : list ResolvedSchema)
  (offset : nat) : option Hover :=
  match nodeAt root [] offset with
  | None => None
  | Some (path, n) =>
      match omap describe (appliedAt root schemas path) with
      | [] => None
      | text :: _ => Some (mkHover text (nodeRange n))
      end
  end.

(** ** Completion *)

Record CompletionItem := mkCompletionItem {
  ciLabel : string;
  ciInsertText : string
}.

Record CompletionList := mkCompletionList {
  clItems : list CompletionItem;
  clIsIncomplete : bool
}.

Definition newline : string := String (ascii_of_nat 10) EmptyString.

(** The text a value of the schema is written as, for scalars. *)
Definition literalText (j : JSONSchema) : option string :=
  match j with
  | JStr s => Some s
  | JNum z => Some (pretty z)
  | JBool true => Some "true"
  | JBool false => Some "false"
  | JNull => Some "null"
  | _ => None
  end.

(** The insertion template of a property: the key, then the default
    value, or a new indented line when the property is an object. *)
Definition propertyTemplate (indentation : string) (key : string)
  (propertySchema : JSONSchema) : string :=
  match propertySchema with
  | JObj fields =>
      match field "type" fields with
      | Some (JStr "object") => key +:+ ":" +:+ newline +:+ indentation
      | _ =>
          match field "default" fields with
          | Some d => key +:+ ": " +:+ default "" (literalText d)
          | None => key +:+ ": "
          end
      end
  | _ => key +:+ ": "
  end.

(** The property-name items of one fragment for a mapping with [present]
    keys. *)
Definition propertyItems (indentation : string) (present : list string)
  (fragment : JSONSchema) : list CompletionItem :=
  match fragment with
  | JObj fields =>
      match field "properties" fields with
      | Some (JObj props) =>
          flat_map
            (fun kv =>
               if bool_decide (fst kv ∈ present) then []
               else [mkCompletionItem (fst kv)
                       (propertyTemplate indentation (fst kv) (snd kv))])
            props
      | _ => []
      end
  | _ => []
  end.

(** The literal-value items of one fragment. *)
Definition valueItems (fragment : JSONSchema) : list CompletionItem :=
  match fragment with
  | JObj fields =>
      match field "enum" fields with
      | Some (JArr values) =>
          flat_map
            (fun j => match literalText j with
                      | Some text => [mkCompletionItem text text]
                      | None => []
                      end)
            values
      | _ => []
      end
      ++
      match field "const" fields with
      | Some j =>
          match literalText j with
          | Some text => [mkCompletionItem text text]
          | None => []
          end
      | None => []
      end
  | _ => []
  end.

(** The first item of every label, in order. *)
Fixpoint dedupByLabel (seen : list string) (l : list CompletionItem)
  : list CompletionItem :=
  match l with
  | [] => []
  | item :: rest =>
      if bool_decide (ciLabel item ∈ seen) then dedupByLabel seen rest
      else item :: dedupByLabel (ciLabel item :: seen) rest
  end.

(** Modelled from the spec: the completion producer of section 4.5.  The
    node under the cursor decides the context: in a mapping the names of
    the properties it lacks are offered; at a value the mapping around it
    is the one completed, and the literals of the value's own fragments
    are offered too.  Items keep declaration order, one per label. *)
Definition completeAt (indentation : string) (root : DocumentNode)
  (schemas : list ResolvedSchema) (offset : nat) : list CompletionItem :=
  let '(path, n) := default ([], root) (nodeAt root [] offset) in
  let mappingPath :=
    match n with
    | Mapping _ _ _ => path
    | _ => removelast path
    end in
  let present :=
    match nodeAtPath mappingPath root with
    | Some m => map pairKey (pairsOf m)
    | None => []
    end in
  let values :=
    match n with
    | Mapping _ _ _ => []
    | _ => flat_map valueItems (appliedAt root schemas path)
    end in
  dedupByLabel []
    (values
     ++ flat_map (propertyItems indentation present)
                 (appliedAt root schemas mappingPath)).

End Producers.

(* ================================================================== *)
(** * The interfaces of [yamlLanguageService.ts] *)
(* ================================================================== *)

(** [SchemaConfiguration]: an entry of [settings.schemas]. *)
Record SchemaConfiguration := mkSchemaConfiguration {
  uri : string;
  fileMatch : option (list string);
  schema : option JSONSchema
}.

(** [LanguageSettings]: every field is optional. *)
Record LanguageSettings := mkLanguageSettings {
  validate : option bool;
  hover : option bool;
  completion : option bool;
  format : option bool;
  isKubernetes : option bool;
  schemas : option (list SchemaConfiguration);
  customTags : option (list string);
  indentation : option string
}.

(** [WorkspaceContextService]. *)
Record WorkspaceContextService := mkWorkspaceContextService {
  resolveRelativePath : string -> string -> string
}.

(** [CustomFormatterOptions]. *)
Record CustomFormatterOptions := mkCustomFormatterOptions {
  singleQuote : option bool;
  bracketSpacing : option bool;
  proseWrap : option string;
  printWidth : option nat;
  enable : option bool
}.

(** The result types of vscode-languageserver-types the members return. *)
Record TextEdit := mkTextEdit {
  teRange : Range;
  teNewText : string
}.

Record DocumentLink := mkDocumentLink {
  dlRange : Range;
  dlTarget : option string
}.

Record DefinitionLink := mkDefinitionLink {
  targetUri : string;
  targetRange : Range
}.

(** [JSONDocument] of vscode-json-languageservice. *)
Record JSONDocument := mkJSONDocument {
  jsonRoot : option DocumentNode
}.

(** Modelled from the spec: a custom schema provider maps a document
    identifier to a schema URI or to nothing (section 3 and 9). *)
Definition CustomSchemaProvider : Type := string -> option string.

(** Modelled from the spec: [SchemaAdditions] and [SchemaDeletions], the
    in-place edits of registered content: a key set, or removed, in the
    object a path leads to. *)
Record SchemaAdditions := mkSchemaAdditions {
  additionSchema : string;
  additionPath : string;
  additionKey : string;
  additionContent : JSONSchema
}.

Record SchemaDeletions := mkSchemaDeletions {
  deletionSchema : string;
  deletionPath : string;
  deletionKey : string
}.

(** What the service takes from outside and neither the source file nor
    the spec defines: the identifier of the built-in kubernetes schema,
    the external formatter, and [findLinks] of [services/yamlLinks]. *)
Class Collaborators := {
  kubernetesSchemaUri : string;
  externalFormat : string -> CustomFormatterOptions -> string;
  yamlLinks : TextDocument -> Promise (list DocumentLink)
}.

(** JavaScript truthiness of an optional flag. *)
Definition truthy (flag : option bool) : bool :=
  match flag with
  | Some true => true
  | _ => false
  end.

(* ================================================================== *)
(** * The schema service *)
(* ================================================================== *)

Module YAMLSchemaService.

(** Modelled from the spec: the Schema Store and the association index
    of section 2, held by one object: the fetch capability, the inline
    documents, the external associations in registration order, the
    custom provider, and the cache of resolved schemas by URI. *)
Record t := mk {
  requestService : SchemaRequestService;
  contextService : WorkspaceContextService;
  registeredSchemas : gmap string JSONSchema;
  externalSchemas : list SchemaConfiguration;
  customSchemaProvider : option CustomSchemaProvider;
  resolvedCache : gmap string ResolvedSchema
}.

(** [new YAMLSchemaService(schemaRequestService, workspaceContext)]. *)
Definition new (schemaRequestService : SchemaRequestService)
  (workspaceContext : WorkspaceContextService) : t :=
  mk schemaRequestService workspaceContext ∅ [] None ∅.

Definition withCache (cache : gmap string ResolvedSchema) (svc : t) : t :=
  mk (requestService svc) (contextService svc) (registeredSchemas svc)
     (externalSchemas svc) (customSchemaProvider svc) cache.

Definition withRegistered (docs : gmap string JSONSchema) (svc : t) : t :=
  mk (requestService svc) (contextService svc) docs
     (externalSchemas svc) (customSchemaProvider svc) (resolvedCache svc).

Definition withExternal (l : list SchemaConfiguration) (svc : t) : t :=
  mk (requestService svc) (contextService svc) (registeredSchemas svc)
     l (customSchemaProvider svc) (resolvedCache svc).

(** The cache without the entries whose resolution chain touched [u]. *)
Definition invalidate (u : string) (cache : gmap string ResolvedSchema)
  : gmap string ResolvedSchema :=
  filter (fun entry => u ∉ rsTouched (snd entry)) cache.

(** Modelled from the spec: the resource-change notification: the cache
    entries that depend on the URI are dropped; the result tells whether
    there was one. *)
Definition onResourceChange (u : string) (svc : t) : bool * t :=
  (existsb (fun entry => bool_decide (u ∈ rsTouched (snd entry)))
           (map_to_list (resolvedCache svc)),
   withCache (invalidate u (resolvedCache svc)) svc).

(** Modelled from the spec: external schemas are the associations of
    the configuration; clearing them leaves none, and no resolved schema
    that may have used their content. *)
Definition clearExternalSchemas (svc : t) : t :=
  withCache ∅ (withExternal [] svc).

(** Modelled from the spec: one more association, after those there are. *)
Definition registerExternalSchema (u : string) (filePatterns : option (list string))
  (unresolvedSchemaContent : option JSONSchema) (svc : t) : t :=
  withCache (invalidate u (resolvedCache svc))
    (withExternal
       (externalSchemas svc
        ++ [mkSchemaConfiguration u filePatterns unresolvedSchemaContent])
       svc).

(** Modelled from the spec: the content-based provider the service is
    configured with (section 9); a later one replaces an earlier one. *)
Definition registerCustomSchemaProvider (schemaProvider : CustomSchemaProvider)
  (svc : t) : t :=
  mk (requestService svc) (contextService svc) (registeredSchemas svc)
     (externalSchemas svc) (Some schemaProvider) (resolvedCache svc).

(** Modelled from the spec: [putInline] and removal of section 4.1. *)
Definition saveSchema (schemaID : string) (content : JSONSchema) (svc : t) : t :=
  withCache (invalidate schemaID (resolvedCache svc))
    (withRegistered (<[schemaID := content]> (registeredSchemas svc)) svc).

Definition deleteSchema (schemaID : string) (svc : t) : t :=
  withCache (invalidate schemaID (resolvedCache svc))
    (withRegistered (delete schemaID (registeredSchemas svc)) svc).

(** The content with the fields of the object at [path] changed by [f]. *)
Fixpoint updateAt (path : list string)
  (f : list (string * JSONSchema) -> list (string * JSONSchema))
  (s : JSONSchema) : JSONSchema :=
  match s with
  | JObj fields =>
      match path with
      | [] => JObj (f fields)
      | seg :: rest =>
          JObj (map (fun kv => if decide (fst kv = seg)
                               then (fst kv, updateAt rest f (snd kv))
                               else kv)
                    fields)
      end
  | _ => s
  end.

Definition withoutField (k : string) (fields : list (string * JSONSchema))
  : list (string * JSONSchema) :=
  filter (fun kv => fst kv ≠ k) fields.

Definition pathSegments (path : string) : list string :=
  filter (fun seg => seg ≠ EmptyString) (splitOn "/"%char path).

(** Modelled from the spec: [patchContent] and [removeContent] of
    section 4.1, on a registered document. *)
Definition addContent (additions : SchemaAdditions) (svc : t) : t :=
  match registeredSchemas svc !! additionSchema additions with
  | Some content =>
      saveSchema (additionSchema additions)
        (updateAt (pathSegments (additionPath additions))
           (fun fields =>
              withoutField (additionKey additions) fields
              ++ [(additionKey additions, additionContent additions)])
           content)
        svc
  | None => svc
  end.

Definition deleteContent (deletions : SchemaDeletions) (svc : t) : t :=
  match registeredSchemas svc !! deletionSchema deletions with
  | Some content =>
      saveSchema (deletionSchema deletions)
        (updateAt (pathSegments (deletionPath deletions))
           (withoutField (deletionKey deletions)) content)
        svc
  | None => svc
  end.

(** The inline schemas of the associations, over the registered ones:
    the store resolution reads. *)
Definition storeOf (svc : t) : SchemaStore :=
  mkSchemaStore
    (fold_right
       (fun c docs =>
          match schema c with
          | Some content => <[uri c := content]> docs
          | None => docs
          end)
       (registeredSchemas svc) (externalSchemas svc))
    (requestService svc).

(** ** Associations *)

(** Whether all of [text] matches [pattern], where a star stands for any
    run of characters. *)
Fixpoint globMatch (pattern text : list ascii) : bool :=
  match pattern with
  | [] => match text with [] => true | _ => false end
  | c :: pattern' =>
      if Ascii.eqb c "*"%char then
        (fix star (text : list ascii) : bool :=
           globMatch pattern' text
           || match text with
              | [] => false
              | _ :: text' => star text'
              end) text
      else
        match text with
        | c' :: text' => Ascii.eqb c c' && globMatch pattern' text'
        | [] => false
        end
  end.

(** A file pattern matches a resource when it matches the end of its
    identifier. *)
Definition fileMatches (pattern resource : string) : bool :=
  globMatch ("*"%char :: list_ascii_of_string pattern)
            (list_ascii_of_string resource).

Definition associationMatches (resource : string) (c : SchemaConfiguration) : bool :=
  match fileMatch c with
  | Some patterns => existsb (fun pattern => fileMatches pattern resource) patterns
  | None => false
  end.

(** The schema a document declares itself. *)
Definition declaredSchema (root : DocumentNode) : list string :=
  match childOf "$schema" root with
  | Some (Scalar _ _ (VStr u)) => [u]
  | _ => []
  end.

Section WithCollaborators.
Context {weights : ScoringWeights} {collaborators : Collaborators}.

(** Modelled from the spec: the built-in provider the [isKubernetes]
    option switches on, keyed on the apiVersion and kind fields. *)
Definition kubernetesProvider (root : DocumentNode) : list string :=
  match childOf "apiVersion" root, childOf "kind" root with
  | Some _, Some _ => [kubernetesSchemaUri]
  | _, _ => []
  end.

(** Modelled from the spec: the candidate root schemas of a document
    (section 3): what the custom provider answers, the schema the
    document declares, the associations whose file patterns match, in
    registration order, and the kubernetes schema when asked for. *)
Definition candidateSchemas (svc : t) (document : TextDocument)
  (kubernetes : bool) : list string :=
  match customSchemaProvider svc with
  | Some provider => option_list (provider (docUri document))
  | None => []
  end
  ++ declaredSchema (docRoot document)
  ++ map uri (filter (fun c => associationMatches (docUri document) c = true)
                     (externalSchemas svc))
  ++ (if kubernetes then kubernetesProvider (docRoot document) else []).

(** Modelled from the spec: the resolved schema of a URI, from the cache
    or resolved now and cached.  A URI whose document cannot be had
    resolves to the unresolved node with its note. *)
Definition resolvedSchemaFor (u : string) (svc : t) : Promise ResolvedSchema * t :=
  match resolvedCache svc !! u with
  | Some r => (Fulfilled r, svc)
  | None =>
      match resolveURI (storeOf svc) u with
      | inr e => (Fulfilled (mkResolvedSchema (JUnresolved e) [e] {[ u ]}), svc)
      | inl content =>
          match resolve (mkSchemaDocument u content) (storeOf svc) with
          | Some r => (Fulfilled r, withCache (<[u := r]> (resolvedCache svc)) svc)
          | None => (Rejected "schema resolution did not finish", svc)
          end
      end
  end.

Fixpoint resolvedSchemasFor (uris : list string) (svc : t)
  : Promise (list ResolvedSchema) * t :=
  match uris with
  | [] => (Fulfilled [], svc)
  | u :: rest =>
      match resolvedSchemaFor u svc with
      | (Rejected reason, svc1) => (Rejected reason, svc1)
      | (Fulfilled r, svc1) =>
          match resolvedSchemasFor rest svc1 with
          | (Rejected reason, svc2) => (Rejected reason, svc2)
          | (Fulfilled rs, svc2) => (Fulfilled (r :: rs), svc2)
          end
      end
  end.

(** Modelled from the spec: the schemas a document is matched against. *)
Definition getSchemaForResource (document : TextDocument) (kubernetes : bool)
  (svc : t) : Promise (list ResolvedSchema) * t :=
  resolvedSchemasFor (candidateSchemas svc document kubernetes) svc.

End WithCollaborators.

End YAMLSchemaService.

(* ================================================================== *)
(** * The producers as the service holds them *)
(* ================================================================== *)

(** [document.offsetAt(position)]: the offset of a line and character,
    no further than the end of the line or of the text. *)
Fixpoint offsetAt (text : string) (l c : nat) : nat :=
  match text with
  | EmptyString => 0
  | String a rest =>
      match l with
      | 0 =>
          match c with
          | 0 => 0
          | S c' => if Ascii.eqb a (ascii_of_nat 10) then 0 else S (offsetAt rest 0 c')
          end
      | S l' =>
          S (offsetAt rest (if Ascii.eqb a (ascii_of_nat 10) then l' else l) c)
      end
  end.

Definition offsetOf (document : TextDocument) (position : Position) : nat :=
  offsetAt (docText document) (line position) (character position).

Module YAMLDocumentSymbols.

(** Modelled from the spec: the symbol producer holds nothing of its
    own; the schema service it is constructed with is an argument of its
    methods here. *)
Record t := mk { }.

Definition new (schemaService : YAMLSchemaService.t) : t := mk.

(** Modelled from the spec: the two forms of the symbols of section 4.6. *)
Definition findDocumentSymbols (schemaService : YAMLSchemaService.t) (self : t)
  (document : TextDocument) : list SymbolInformation :=
  flattenSymbols (symbolsOf (docRoot document)).

Definition findHierarchicalDocumentSymbols (schemaService : YAMLSchemaService.t)
  (self : t) (document : TextDocument) : list DocumentSymbol :=
  symbolsOf (docRoot document).

End YAMLDocumentSymbols.

Module YAMLValidation.

(** Modelled from the spec: the validation producer with the [validate]
    and [customTags] options it is configured with. *)
Record t := mk {
  validationEnabled : bool;
  tags : list string
}.

Definition new (schemaService : YAMLSchemaService.t) : t := mk true [].

(** Modelled from the spec: the [validate] option enables or disables
    diagnostics (section 6). *)
Definition configure (settings : LanguageSettings) (self : t) : t :=
  mk (truthy (validate settings)) (default [] (customTags settings)).

Section WithCollaborators.
Context {weights : ScoringWeights} {collaborators : Collaborators}.

(** Modelled from the spec: association, resolution and the validation
    producer, one after the other; nothing when validation is off. *)
Definition doValidation (self : t) (document : TextDocument) (kubernetes : bool)
  (schemaService : YAMLSchemaService.t)
  : Promise (list Diagnostic) * YAMLSchemaService.t :=
  if validationEnabled self then
    match YAMLSchemaService.getSchemaForResource document kubernetes schemaService with
    | (Fulfilled resolved, schemaService') =>
        (Fulfilled (validateDocument (docRoot document) resolved), schemaService')
    | (Rejected reason, schemaService') => (Rejected reason, schemaService')
    end
  else (Fulfilled [], schemaService).

End WithCollaborators.

End YAMLValidation.

Module YAMLHover.

(** Modelled from the spec: the hover producer with the [hover] option
    it is configured with (section 6). *)
Record t := mk {
  shouldHover : bool
}.

Definition new (schemaService : YAMLSchemaService.t) : t := mk true.

Definition configure (settings : LanguageSettings) (self : t) : t :=
  mk (truthy (hover settings)).

Section WithCollaborators.
Context {weights : ScoringWeights} {collaborators : Collaborators}.

(** Modelled from the spec: the hover producer at the offset of the
    position; nothing when hover is off. *)
Definition doHover (self : t) (document : TextDocument) (position : Position)
  (schemaService : YAMLSchemaService.t)
  : Promise (option Hover) * YAMLSchemaService.t :=
  if shouldHover self then
    match YAMLSchemaService.getSchemaForResource document false schemaService with
    | (Fulfilled resolved, schemaService') =>
        (Fulfilled (hoverAt (docRoot document) resolved (offsetOf document position)),
         schemaService')
    | (Rejected reason, schemaService') => (Rejected reason, schemaService')
    end
  else (Fulfilled None, schemaService).

End WithCollaborators.

End YAMLHover.

Module YAMLCompletion.

(** Modelled from the spec: the completion producer with the
    [completion], [customTags] and [indentation] options it is
    configured with (section 6). *)
Record t := mk {
  completionEnabled : bool;
  tags : list string;
  indent : string
}.

Definition new (schemaService : YAMLSchemaService.t) : t := mk true [] "  ".

Definition configure (settings : LanguageSettings) (customTagsSetting : list string)
  (self : t) : t :=
  mk (truthy (completion settings)) customTagsSetting
     (default "  " (indentation settings)).

Section WithCollaborators.
Context {weights : ScoringWeights} {collaborators : Collaborators}.

(** Modelled from the spec: the completion producer at the offset of the
    position; an empty list when completion is off. *)
Definition doComplete (self : t) (document : TextDocument) (position : Position)
  (kubernetes : bool) (schemaService : YAMLSchemaService.t)
  : Promise CompletionList * YAMLSchemaService.t :=
  if completionEnabled self then
    match YAMLSchemaService.getSchemaForResource document kubernetes schemaService with
    | (Fulfilled resolved, schemaService') =>
        (Fulfilled
           (mkCompletionList
              (completeAt (indent self) (docRoot document) resolved
                          (offsetOf document position))
              false),
         schemaService')
    | (Rejected reason, schemaService') => (Rejected reason, schemaService')
    end
  else (Fulfilled (mkCompletionList [] false), schemaService).

End WithCollaborators.

End YAMLCompletion.

Module YAMLFormatter.

(** Modelled from the spec: the formatter with the [format] option it is
    configured with (section 6). *)
Record t := mk {
  formatterEnabled : bool
}.

Definition new : t := mk true.

Definition configure (settings : LanguageSettings) (self : t) : t :=
  mk (truthy (format settings)).

Section WithCollaborators.
Context {collaborators : Collaborators}.

(** Modelled from the spec: formatting is the external formatter's; the
    whole text is replaced by what it returns. *)
Definition format (self : t) (document : TextDocument)
  (options : CustomFormatterOptions) : list TextEdit :=
  if formatterEnabled self then
    [mkTextEdit (mkRange 0 (String.length (docText document)))
                (externalFormat (docText document) options)]
  else [].

End WithCollaborators.

End YAMLFormatter.

(* ================================================================== *)
(** * [getLanguageService] *)
(* ================================================================== *)

Module Engine.

(** The objects [getLanguageService] constructs, lines 101 to 106 of the
    source; the closures of the object it returns capture them.  The
    completer, the hover, the symbol and the validation producers are
    all constructed with the one [schemaService]. *)
Record t := mk {
  schemaService : YAMLSchemaService.t;
  completer : YAMLCompletion.t;
  hover : YAMLHover.t;
  yamlDocumentSymbols : YAMLDocumentSymbols.t;
  yamlValidation : YAMLValidation.t;
  formatter : YAMLFormatter.t
}.

End Engine.

(** A member of the service: it returns a value and may change the
    objects the closure captured. *)
Definition Action (A : Type) : Type := Engine.t -> A * Engine.t.

#[global] Instance Action_ret : MRet Action := fun A x e => (x, e).

#[global] Instance Action_bind : MBind Action :=
  fun A B k m e => let '(x, e') := m e in k x e'.

(** A call of a method of [schemaService]. *)
Definition callSchemaService {A : Type}
  (method : YAMLSchemaService.t -> A * YAMLSchemaService.t) : Action A :=
  fun e =>
    let '(x, svc) := method (Engine.schemaService e) in
    (x, Engine.mk svc (Engine.completer e) (Engine.hover e)
                  (Engine.yamlDocumentSymbols e) (Engine.yamlValidation e)
                  (Engine.formatter e)).

(** A call of a method of [schemaService] that returns nothing. *)
Definition onSchemaService (method : YAMLSchemaService.t -> YAMLSchemaService.t)
  : Action unit :=
  callSchemaService (fun svc => (tt, method svc)).

Definition onCompleter (method : YAMLCompletion.t -> YAMLCompletion.t) : Action unit :=
  fun e =>
    (tt, Engine.mk (Engine.schemaService e) (method (Engine.completer e))
                   (Engine.hover e) (Engine.yamlDocumentSymbols e)
                   (Engine.yamlValidation e) (Engine.formatter e)).

Definition onHover (method : YAMLHover.t -> YAMLHover.t) : Action unit :=
  fun e =>
    (tt, Engine.mk (Engine.schemaService e) (Engine.completer e)
                   (method (Engine.hover e)) (Engine.yamlDocumentSymbols e)
                   (Engine.yamlValidation e) (Engine.formatter e)).

Definition onValidation (method : YAMLValidation.t -> YAMLValidation.t) : Action unit :=
  fun e =>
    (tt, Engine.mk (Engine.schemaService e) (Engine.completer e)
                   (Engine.hover e) (Engine.yamlDocumentSymbols e)
                   (method (Engine.yamlValidation e)) (Engine.formatter e)).

Definition onFormatter (method : YAMLFormatter.t -> YAMLFormatter.t) : Action unit :=
  fun e =>
    (tt, Engine.mk (Engine.schemaService e) (Engine.completer e)
                   (Engine.hover e) (Engine.yamlDocumentSymbols e)
                   (Engine.yamlValidation e) (method (Engine.formatter e))).

(** Reading the captured objects. *)
Definition reading {A : Type} (f : Engine.t -> A) : Action A :=
  fun e => (f e, e).

(** [array.forEach(callback)]. *)
Fixpoint forEach {A : Type} (l : list A) (callback : A -> Action unit)
  : Action unit :=
  match l with
  | [] => mret tt
  | x :: rest => callback x;; forEach rest callback
  end.

(** [LanguageService], lines 79 to 95 of the source. *)
Record LanguageService := mkLanguageService {
  configure : LanguageSettings -> Action unit;
  registerCustomSchemaProvider : CustomSchemaProvider -> Action unit;
  doComplete : TextDocument -> Position -> bool -> Action (Promise CompletionList);
  doValidation : TextDocument -> bool -> Action (Promise (list Diagnostic));
  doHover : TextDocument -> Position -> Action (Promise (option Hover));
  findDocumentSymbols : TextDocument -> Action (list SymbolInformation);
  findDocumentSymbols2 : TextDocument -> Action (list DocumentSymbol);
  findDefinition : TextDocument -> Position -> JSONDocument ->
                   Action (Promise (list DefinitionLink));
  findLinks : TextDocument -> Action (Promise (list DocumentLink));
  resetSchema : string -> Action bool;
  doFormat : TextDocument -> CustomFormatterOptions -> Action (list TextEdit);
  addSchema : string -> JSONSchema -> Action unit;
  deleteSchema : string -> Action unit;
  modifySchemaContent : SchemaAdditions -> Action unit;
  deleteSchemaContent : SchemaDeletions -> Action unit
}.

Section GetLanguageService.
Context {weights : ScoringWeights} {collaborators : Collaborators}.

(** The objects constructed by one call of [getLanguageService]. *)
Definition newEngine (schemaRequestService : SchemaRequestService)
  (workspaceContext : WorkspaceContextService) : Engine.t :=
  let schemaService := YAMLSchemaService.new schemaRequestService workspaceContext in
  let completer := YAMLCompletion.new schemaService in
  let hover := YAMLHover.new schemaService in
  let yamlDocumentSymbols := YAMLDocumentSymbols.new schemaService in
  let yamlValidation := YAMLValidation.new schemaService in
  let formatter := YAMLFormatter.new in
  Engine.mk schemaService completer hover yamlDocumentSymbols yamlValidation formatter.

(** The object [getLanguageService] returns, lines 108 to 148, member by
    member in the order of the source. *)
Definition languageServiceObject : LanguageService :=
  {| configure := fun settings =>
       onSchemaService YAMLSchemaService.clearExternalSchemas;;
       match schemas settings with
       | Some entries =>
           forEach entries
             (fun settings =>
                onSchemaService
                  (YAMLSchemaService.registerExternalSchema
                     (uri settings) (fileMatch settings) (schema settings)))
       | None => mret tt
       end;;
       onValidation (YAMLValidation.configure settings);;
       onHover (YAMLHover.configure settings);;
       let customTagsSetting :=
         match customTags settings with
         | Some tags => tags
         | None => []
         end in
       onCompleter (YAMLCompletion.configure settings customTagsSetting);;
       onFormatter (YAMLFormatter.configure settings);
     registerCustomSchemaProvider := fun schemaProvider =>
       onSchemaService (YAMLSchemaService.registerCustomSchemaProvider schemaProvider);
     findDefinition := fun _ _ _ => mret (Fulfilled []);
     findLinks := fun document => mret (yamlLinks document);
     doComplete := fun document position kubernetes =>
       completer ← reading Engine.completer;
       callSchemaService
         (YAMLCompletion.doComplete completer document position kubernetes);
     doValidation := fun document kubernetes =>
       yamlValidation ← reading Engine.yamlValidation;
       callSchemaService (YAMLValidation.doValidation yamlValidation document kubernetes);
     doHover := fun document position =>
       hover ← reading Engine.hover;
       callSchemaService (YAMLHover.doHover hover document position);
     findDocumentSymbols := fun document =>
       reading
         (fun e =>
            YAMLDocumentSymbols.findDocumentSymbols
              (Engine.schemaService e) (Engine.yamlDocumentSymbols e) document);
     findDocumentSymbols2 := fun document =>
       reading
         (fun e =>
            YAMLDocumentSymbols.findHierarchicalDocumentSymbols
              (Engine.schemaService e) (Engine.yamlDocumentSymbols e) document);
     resetSchema := fun u =>
       callSchemaService (YAMLSchemaService.onResourceChange u);
     doFormat := fun document options =>
       formatter ← reading Engine.formatter;
       mret (YAMLFormatter.format formatter document options);
     addSchema := fun schemaID content =>
       onSchemaService (YAMLSchemaService.saveSchema schemaID content);
     deleteSchema := fun schemaID =>
       onSchemaService (YAMLSchemaService.deleteSchema schemaID);
     modifySchemaContent := fun schemaAdditions =>
       onSchemaService (YAMLSchemaService.addContent schemaAdditions);
     deleteSchemaContent := fun schemaDeletions =>
       onSchemaService (YAMLSchemaService.deleteContent schemaDeletions)
  |}.

(** [getLanguageService]: the freshly constructed objects and the object
    whose members act on them. *)
Definition getLanguageService (schemaRequestService : SchemaRequestService)
  (workspaceContext : WorkspaceContextService) : LanguageService * Engine.t :=
  (languageServiceObject, newEngine schemaRequestService workspaceContext).

(** The own properties of the returned object, by name, in the order of
    the object literal. *)
Definition ownProperties (service : LanguageService)
  : list (string * {T : Type & T}) :=
  [ ("configure", existT _ (configure service));
    ("registerCustomSchemaProvider", existT _ (registerCustomSchemaProvider service));
    ("findDefinition", existT _ (findDefinition service));
    ("findLinks", existT _ (findLinks service));
    ("doComplete", existT _ (doComplete service));
    ("doValidation", existT _ (doValidation service));
    ("doHover", existT _ (doHover service));
    ("findDocumentSymbols", existT _ (findDocumentSymbols service));
    ("findDocumentSymbols2", existT _ (findDocumentSymbols2 service));
    ("resetSchema", existT _ (resetSchema service));
    ("doFormat", existT _ (doFormat service));
    ("addSchema", existT _ (addSchema service));
    ("deleteSchema", existT _ (deleteSchema service));
    ("modifySchemaContent", existT _ (modifySchemaContent service));
    ("deleteSchemaContent", existT _ (deleteSchemaContent service)) ].

Definition memberNames (service : LanguageService) : list string :=
  map fst (ownProperties service).

(** ** Several services in one process *)




End GetLanguageService.

(* ================================================================== *)
(** * The operation surface the specification lists *)
(* ================================================================== *)

(** The operations of section 6 of the specification, in its words. *)
Inductive SpecOperation :=
| OpConfigure
| OpRegisterCustomSchemaProvider
| OpComplete
| OpValidate
| OpHover
| OpFindSymbolsFlat
| OpFindSymbolsHierarchical
| OpResetSchema
| OpAddSchema
| OpDeleteSchema
| OpModifySchemaContent
| OpDeleteSchemaContent
| OpFormat.

Definition specSurface : list SpecOperation :=
  [ OpConfigure; OpRegisterCustomSchemaProvider; OpComplete; OpValidate;
    OpHover; OpFindSymbolsFlat; OpFindSymbolsHierarchical; OpResetSchema;
    OpAddSchema; OpDeleteSchema; OpModifySchemaContent; OpDeleteSchemaContent;
    OpFormat ].

(** The member of [LanguageService] that stands for an operation. *)
Definition memberFor (op : SpecOperation) : string :=
  match op with
  | OpConfigure => "configure"
  | OpRegisterCustomSchemaProvider => "registerCustomSchemaProvider"
  | OpComplete => "doComplete"
  | OpValidate => "doValidation"
  | OpHover => "doHover"
  | OpFindSymbolsFlat => "findDocumentSymbols"
  | OpFindSymbolsHierarchical => "findDocumentSymbols2"
  | OpResetSchema => "resetSchema"
  | OpAddSchema => "addSchema"
  | OpDeleteSchema => "deleteSchema"
  | OpModifySchemaContent => "modifySchemaContent"
  | OpDeleteSchemaContent => "deleteSchemaContent"
  | OpFormat => "doFormat"
  end.

(* ================================================================== *)
(** * Sample data *)
(* ================================================================== *)

(** Weights that satisfy the one constraint of the specification. *)
Definition samplePenalty (k : ProblemKind) : Z :=
  match k with
  | TypeMismatch => 2%Z
  | _ => 1%Z
  end.

Definition sampleWeights : ScoringWeights :=
  Build_ScoringWeights samplePenalty eq_refl.

(** Collaborators that do nothing: the text is returned as it is, and
    no link is found. *)
Definition sampleCollaborators : Collaborators :=
  Build_Collaborators "kubernetes" (fun text _ => text) (fun _ => Fulfilled []).

(** A fetch capability that serves one schema, whose [next] property
    refers back to the schema itself, and fails for every other URI. *)
Definition listSchema : JSONSchema :=
  JObj [ ("type", JStr "object");
         ("properties",
          JObj [ ("value", JObj [("type", JStr "number")]);
                 ("next", JObj [("$ref", JStr "#")]) ]) ].

Definition sampleRequestService : SchemaRequestService :=
  mkSchemaRequestService {[ "list.json" := listSchema ]}
                         (fun u => "Unable to load " +:+ u).

Definition sampleWorkspace : WorkspaceContextService :=
  mkWorkspaceContextService (fun relativePath _ => relativePath).

Definition sampleStore : SchemaStore := mkSchemaStore ∅ sampleRequestService.

Definition listDocument : SchemaDocument := mkSchemaDocument "list.json" listSchema.

(** The document [value: 1] followed by [next: { value: true }]. *)
Definition sampleRoot : DocumentNode :=
  Mapping (mkRange 0 30) None
    [ mkPair (mkRange 0 8) "value" (Scalar (mkRange 7 8) None (VNum 1));
      mkPair (mkRange 9 30) "next"
        (Mapping (mkRange 16 30) None
           [ mkPair (mkRange 16 27) "value" (Scalar (mkRange 23 27) None (VBool true)) ]) ].

Definition sampleText : TextDocument :=
  mkTextDocument "file:///data/items.yaml" 1 "value: 1  next: { value: true }" sampleRoot.

(** Settings that switch every producer on and associate [list.json]
    with the YAML files, and a second schema that cannot be fetched. *)
Definition sampleSettings : LanguageSettings :=
  mkLanguageSettings (Some true) (Some true) (Some true) (Some true) None
    (Some [ mkSchemaConfiguration "list.json" (Some ["*.yaml"]) None;
            mkSchemaConfiguration "missing.json" (Some ["items.yaml"]) None ])
    None None.

(** Two schemas that refer to each other: a tree whose children are
    forests, and a forest whose items are trees. *)
Definition treeSchema : JSONSchema :=
  JObj [ ("properties", JObj [("children", JObj [("$ref", JStr "forest.json#")])]) ].

Definition forestSchema : JSONSchema :=
  JObj [ ("items", JObj [("$ref", JStr "tree.json#")]) ].

Definition forestStore : SchemaStore :=
  mkSchemaStore {[ "forest.json" := forestSchema ]}
    (mkSchemaRequestService ∅ (fun u => "Unable to load " +:+ u)).

Definition treeDocument : SchemaDocument := mkSchemaDocument "tree.json" treeSchema.

(** The resolution of the sample schema: the reference to itself is the
    circular placeholder. *)
Definition listResolved : ResolvedSchema :=
  mkResolvedSchema
    (JObj [ ("type", JStr "object");
            ("properties",
             JObj [ ("value", JObj [("type", JStr "number")]);
                    ("next", JCircular "list.json" []) ]) ])
    [CircularReference "list.json" []]
    {[ "list.json" ]}.

(** A service over the sample collaborators, configured with the sample
    settings, before and after it validated the sample document. *)
Definition sampleService : LanguageService :=
  fst (@getLanguageService sampleWeights sampleCollaborators
         sampleRequestService sampleWorkspace).

Definition sampleEngine : Engine.t :=
  snd (configure sampleService sampleSettings
         (snd (@getLanguageService sampleWeights sampleCollaborators
                 sampleRequestService sampleWorkspace))).

Definition sampleEngineValidated : Engine.t :=
  snd (doValidation sampleService sampleText false sampleEngine).

(* ================================================================== *)
(** * Calls and sessions *)
(* ================================================================== *)

(** A call of a member of [LanguageService], with its arguments. *)
Inductive MemberCall :=
| CallConfigure (settings : LanguageSettings)
| CallRegisterCustomSchemaProvider (schemaProvider : CustomSchemaProvider)
| CallDoComplete (document : TextDocument) (position : Position) (kubernetes : bool)
| CallDoValidation (document : TextDocument) (kubernetes : bool)
| CallDoHover (document : TextDocument) (position : Position)
| CallFindDocumentSymbols (document : TextDocument)
| CallFindDocumentSymbols2 (document : TextDocument)
| CallFindDefinition (document : TextDocument) (position : Position)
                     (doc : JSONDocument)
| CallFindLinks (document : TextDocument)
| CallResetSchema (u : string)
| CallDoFormat (document : TextDocument) (options : CustomFormatterOptions)
| CallAddSchema (schemaID : string) (content : JSONSchema)
| CallDeleteSchema (schemaID : string)
| CallModifySchemaContent (schemaAdditions : SchemaAdditions)
| CallDeleteSchemaContent (schemaDeletions : SchemaDeletions).

(** What a call returns, by the return type of its member. *)
Inductive MemberResult :=
| ReturnedNothing
| ReturnedCompletion (value : Promise CompletionList)
| ReturnedDiagnostics (value : Promise (list Diagnostic))
| ReturnedHover (value : Promise (option Hover))
| ReturnedSymbols (value : list SymbolInformation)
| ReturnedSymbols2 (value : list DocumentSymbol)
| ReturnedDefinition (value : Promise (list DefinitionLink))
| ReturnedLinks (value : Promise (list DocumentLink))
| ReturnedFlag (value : bool)
| ReturnedEdits (value : list TextEdit).

(** A member's value seen through a function; the captured objects
    change as the member changes them. *)
#[global] Instance Action_fmap : FMap Action :=
  fun A B f m e => let '(x, e') := m e in (f x, e').

(** The call made on a service. *)
Definition perform (service : LanguageService) (call : MemberCall)
  : Action MemberResult :=
  match call with
  | CallConfigure settings =>
      configure service settings;; mret ReturnedNothing
  | CallRegisterCustomSchemaProvider schemaProvider =>
      registerCustomSchemaProvider service schemaProvider;; mret ReturnedNothing
  | CallDoComplete document position kubernetes =>
      ReturnedCompletion <$> doComplete service document position kubernetes
  | CallDoValidation document kubernetes =>
      ReturnedDiagnostics <$> doValidation service document kubernetes
  | CallDoHover document position =>
      ReturnedHover <$> doHover service document position
  | CallFindDocumentSymbols document =>
      ReturnedSymbols <$> findDocumentSymbols service document
  | CallFindDocumentSymbols2 document =>
      ReturnedSymbols2 <$> findDocumentSymbols2 service document
  | CallFindDefinition document position doc =>
      ReturnedDefinition <$> findDefinition service document position doc
  | CallFindLinks document =>
      ReturnedLinks <$> findLinks service document
  | CallResetSchema u =>
      ReturnedFlag <$> resetSchema service u
  | CallDoFormat document options =>
      ReturnedEdits <$> doFormat service document options
  | CallAddSchema schemaID content =>
      addSchema service schemaID content;; mret ReturnedNothing
  | CallDeleteSchema schemaID =>
      deleteSchema service schemaID;; mret ReturnedNothing
  | CallModifySchemaContent schemaAdditions =>
      modifySchemaContent service schemaAdditions;; mret ReturnedNothing
  | CallDeleteSchemaContent schemaDeletions =>
      deleteSchemaContent service schemaDeletions;; mret ReturnedNothing
  end.

(** A session: calls made one after the other on one service, and what
    they returned, in order. *)
Fixpoint session (service : LanguageService) (calls : list MemberCall)
  : Action (list MemberResult) :=
  match calls with
  | [] => mret []
  | call :: rest =>
      result ← perform service call;
      results ← session service rest;
      mret (result :: results)
  end.

(** The objects a call of [getLanguageService] constructs, by the name of
    the constant that holds them (lines 101 to 106). *)
Inductive Captured :=
| TheSchemaService
| TheCompleter
| TheHover
| TheDocumentSymbols
| TheValidation
| TheFormatter.

#[global] Instance Captured_eq_dec : EqDecision Captured.
Proof. solve_decision. Defined.

(** The objects the body of a member can reach (lines 108 to 148): those
    it names, and [schemaService] through each producer that was
    constructed with it; [formatter] was constructed with nothing, and
    [findLinks] is a function of the document alone. *)
Definition reaches (call : MemberCall) : list Captured :=
  match call with
  | CallConfigure _ =>
      [TheSchemaService; TheValidation; TheHover; TheCompleter; TheFormatter]
  | CallRegisterCustomSchemaProvider _ => [TheSchemaService]
  | CallDoComplete _ _ _ => [TheCompleter; TheSchemaService]
  | CallDoValidation _ _ => [TheValidation; TheSchemaService]
  | CallDoHover _ _ => [TheHover; TheSchemaService]
  | CallFindDocumentSymbols _ => [TheDocumentSymbols; TheSchemaService]
  | CallFindDocumentSymbols2 _ => [TheDocumentSymbols; TheSchemaService]
  | CallFindDefinition _ _ _ => []
  | CallFindLinks _ => []
  | CallResetSchema _ => [TheSchemaService]
  | CallDoFormat _ _ => [TheFormatter]
  | CallAddSchema _ _ => [TheSchemaService]
  | CallDeleteSchema _ => [TheSchemaService]
  | CallModifySchemaContent _ => [TheSchemaService]
  | CallDeleteSchemaContent _ => [TheSchemaService]
  end.

(** Two states of the captured objects that hold the same object under
    one name. *)
Definition agreeOn (x : Captured) (e1 e2 : Engine.t) : Prop :=
  match x with
  | TheSchemaService => Engine.schemaService e1 = Engine.schemaService e2
  | TheCompleter => Engine.completer e1 = Engine.completer e2
  | TheHover => Engine.hover e1 = Engine.hover e2
  | TheDocumentSymbols => Engine.yamlDocumentSymbols e1 = Engine.yamlDocumentSymbols e2
  | TheValidation => Engine.yamlValidation e1 = Engine.yamlValidation e2
  | TheFormatter => Engine.formatter e1 = Engine.formatter e2
  end.



(** Formatter options that set nothing. *)
Definition sampleOptions : CustomFormatterOptions :=
  mkCustomFormatterOptions None None None None None.

(** A session that edits schemas and validates, and never formats. *)
Definition sampleSession : list MemberCall :=
  [ CallAddSchema "extra.json" (JObj [("type", JStr "object")]);
    CallDoValidation sampleText false;
    CallResetSchema "list.json" ].

(* ================================================================== *)
(** * Documents *)
(* ================================================================== *)

(** ** Induction over documents *)

Lemma DocumentNode_nested_ind (P : DocumentNode -> Prop) :
  (forall r a ps, Forall (fun p => P (pairValue p)) ps -> P (Mapping r a ps)) ->
  (forall r a xs, Forall P xs -> P (Sequence r a xs)) ->
  (forall r a v, P (Scalar r a v)) ->
  (forall r nm, P (Alias r nm)) ->
  forall n, P n.
Proof.
  intros Hmap Hseq Hsc Hal.
  fix IH 1. intros [r a ps | r a xs | r a v | r nm].
  - apply Hmap. induction ps as [| p ps IHps]; constructor; [apply IH | exact IHps].
  - apply Hseq. induction xs as [| x xs IHxs]; constructor; [apply IH | exact IHxs].
  - apply Hsc.
  - apply Hal.
Qed.

(** ** Depth of the symbol hierarchy *)

Lemma max_list_map_length_cons {A} (x : A) (l : list (list A)) :
  l <> [] -> max_list (map length (map (cons x) l)) = S (max_list (map length l)).
Proof.
  induction l as [| y l IH]; [congruence |]. intros _.
  destruct l as [| z l'].
  - simpl. by rewrite Nat.max_0_r.
  - assert (H : z :: l' <> []) by congruence.
    specialize (IH H). cbn [map max_list] in *. rewrite IH.
    cbn [length]. unfold id. lia.
Qed.


Lemma max_list_append (l k : list nat) :
  max_list (l ++ k) = Nat.max (max_list l) (max_list k).
Proof. induction l as [| x l IH]; [reflexivity |]. simpl. rewrite IH. lia. Qed.

Lemma nodePaths_nonempty n : nodePaths n <> [].
Proof. destruct n; discriminate. Qed.

Lemma nestingDepth_child (s : Segment) n :
  max_list (map length (map (cons s) (nodePaths n))) = S (nestingDepth n).
Proof. apply max_list_map_length_cons, nodePaths_nonempty. Qed.

Lemma hierarchyDepth_symbolsOf n : hierarchyDepth (symbolsOf n) = nestingDepth n.
Proof.
  induction n as [r a ps IH | r a xs IH | r a v | r nm] using DocumentNode_nested_ind;
    try reflexivity.
  - unfold hierarchyDepth, nestingDepth. cbn [nodePaths symbolsOf map max_list length].
    rewrite Nat.max_0_l.
    induction IH as [| p ps Hp _ IHps]; [reflexivity |].
    cbn [map max_list symbolDepth]. rewrite map_app, max_list_append.
    rewrite nestingDepth_child. fold (hierarchyDepth (symbolsOf (pairValue p))).
    rewrite Hp. f_equal. exact IHps.
  - unfold hierarchyDepth, nestingDepth. cbn [nodePaths symbolsOf map max_list length].
    rewrite Nat.max_0_l. generalize 0 as i.
    induction IH as [| x xs Hx _ IHxs]; intros i; [reflexivity |].
    cbn [map max_list symbolDepth]. rewrite map_app, max_list_append.
    rewrite nestingDepth_child. fold (hierarchyDepth (symbolsOf x)).
    rewrite Hx. f_equal. apply IHxs.
Qed.

(* ================================================================== *)
(** * The reference resolver *)
(* ================================================================== *)

(** ** Pointer paths *)







(** ** Termination of the walk *)

Section ResolverTermination.

Variable lookup : string -> JSONSchema + ResolutionNote.
Variable targets : gset (string * list string).
Variable bound : nat.

Hypothesis targets_known : forall u d p x,
  lookup u = inl d -> navigate p d = Some x ->
  (u, p) ∈ targets /\ height x <= bound.





End ResolverTermination.

(** ** The walk of a stored document *)





(* ================================================================== *)
(** * The members of the language service *)
(* ================================================================== *)

Section LanguageServiceFacts.
Context {weights : ScoringWeights} {collaborators : Collaborators}.

Lemma memberNames_eq service :
  memberNames service =
  [ "configure"; "registerCustomSchemaProvider"; "findDefinition"; "findLinks";
    "doComplete"; "doValidation"; "doHover"; "findDocumentSymbols";
    "findDocumentSymbols2"; "resetSchema"; "doFormat"; "addSchema";
    "deleteSchema"; "modifySchemaContent"; "deleteSchemaContent" ].
Proof. reflexivity. Qed.

(** C1, as amended.  Every operation section 6 of the specification
    lists has its member in the object [getLanguageService] returns, no
    two members share a name, and the members are those of the listed
    operations and two more: [findDefinition] and [findLinks]. *)
Theorem operation_surface schemaRequestService workspaceContext :
  let service := fst (getLanguageService schemaRequestService workspaceContext) in
  (forall op, In op specSurface /\ In (memberFor op) (memberNames service))
  /\ NoDup (memberNames service)
  /\ (forall name,
        In name (memberNames service) <->
        (exists op, memberFor op = name)
        \/ name = "findDefinition" \/ name = "findLinks").
Proof.
  intros service. rewrite memberNames_eq. split; [| split].
  - intros op. destruct op; split; cbn; tauto.
  - apply (bool_decide_unpack _). vm_compute. reflexivity.
  - intros name. split.
    + cbn. intros H.
      repeat (destruct H as [<- | H];
              [first [ right; left; reflexivity
                     | right; right; reflexivity
                     | left; (exists OpConfigure; reflexivity)
                     | left; (exists OpRegisterCustomSchemaProvider; reflexivity)
                     | left; (exists OpComplete; reflexivity)
                     | left; (exists OpValidate; reflexivity)
                     | left; (exists OpHover; reflexivity)
                     | left; (exists OpFindSymbolsFlat; reflexivity)
                     | left; (exists OpFindSymbolsHierarchical; reflexivity)
                     | left; (exists OpResetSchema; reflexivity)
                     | left; (exists OpAddSchema; reflexivity)
                     | left; (exists OpDeleteSchema; reflexivity)
                     | left; (exists OpModifySchemaContent; reflexivity)
                     | left; (exists OpDeleteSchemaContent; reflexivity)
                     | left; (exists OpFormat; reflexivity) ] |]).
      destruct H.
    + intros [[op <-] | [-> | ->]]; [destruct op |  |]; cbn; tauto.
Qed.

(** C9.  [findDefinition] resolves to the empty list, whatever the
    document, the position, the parsed document and the state of the
    captured objects, which it leaves as they are. *)
Theorem findDefinition_resolves_empty schemaRequestService workspaceContext
  (document : TextDocument) (position : Position) (doc : JSONDocument)
  (engine : Engine.t) :
  findDefinition (fst (getLanguageService schemaRequestService workspaceContext))
                 document position doc engine
  = (Fulfilled [], engine).
Proof. reflexivity. Qed.

End LanguageServiceFacts.

(** C1, as stated, fails: [findLinks] is a member of the returned object
    and stands for none of the listed operations. *)
Lemma findLinks_is_not_listed :
  In "findLinks"
     (@memberNames
        (fst (@getLanguageService sampleWeights sampleCollaborators
                sampleRequestService sampleWorkspace)))
  /\ ~ In "findLinks" (map memberFor specSurface).
Proof.
  split.
  - cbn. tauto.
  - cbn. intros H. repeat (destruct H as [H | H]; [discriminate H |]). exact H.
Qed.

(* ================================================================== *)
(** * Symbols *)
(* ================================================================== *)

Section SymbolFacts.
Context {weights : ScoringWeights} {collaborators : Collaborators}.

(** C2.  Both symbol members return the same symbols from any two
    states of the captured objects, whatever their schema stores, caches
    and associations hold, and leave the state as it is; the flat list is
    the hierarchy flattened; and the depth of the hierarchy is the
    nesting depth of the document. *)
Theorem symbols_ignore_schemas schemaRequestService workspaceContext
  (document : TextDocument) (engine1 engine2 : Engine.t) :
  let service := fst (getLanguageService schemaRequestService workspaceContext) in
  fst (findDocumentSymbols service document engine1)
  = fst (findDocumentSymbols service document engine2)
  /\ fst (findDocumentSymbols2 service document engine1)
     = fst (findDocumentSymbols2 service document engine2)
  /\ snd (findDocumentSymbols service document engine1) = engine1
  /\ snd (findDocumentSymbols2 service document engine1) = engine1
  /\ fst (findDocumentSymbols service document engine1)
     = flattenSymbols (fst (findDocumentSymbols2 service document engine1))
  /\ hierarchyDepth (fst (findDocumentSymbols2 service document engine1))
     = nestingDepth (docRoot document).
Proof.
  cbn. repeat split; try reflexivity.
  unfold YAMLDocumentSymbols.findHierarchicalDocumentSymbols.
  apply hierarchyDepth_symbolsOf.
Qed.

End SymbolFacts.

(** The symbols of the sample document: two levels, as its mappings. *)
Example sampleRoot_symbols :
  symbolsOf sampleRoot
  = [ mkSymbol "value" SkNumber (mkRange 0 8) [];
      mkSymbol "next" SkModule (mkRange 9 30)
        [ mkSymbol "value" SkBoolean (mkRange 16 27) [] ] ]
  /\ hierarchyDepth (symbolsOf sampleRoot) = 2
  /\ nestingDepth sampleRoot = 2.
Proof. repeat split; reflexivity. Qed.

(* ================================================================== *)
(** * Configuration and the schema service *)
(* ================================================================== *)

Lemma externalSchemas_register (entries : list SchemaConfiguration) :
  forall svc,
  YAMLSchemaService.externalSchemas
    (fold_left
       (fun svc c =>
          YAMLSchemaService.registerExternalSchema (uri c) (fileMatch c) (schema c) svc)
       entries svc)
  = YAMLSchemaService.externalSchemas svc ++ entries.
Proof.
  induction entries as [| c entries IH]; intros svc; cbn [fold_left].
  - symmetry. apply app_nil_r.
  - rewrite IH. cbn. destruct c. cbn. rewrite <- app_assoc. reflexivity.
Qed.

Lemma forEach_onSchemaService {A : Type} (l : list A)
  (method : A -> YAMLSchemaService.t -> YAMLSchemaService.t) :
  forall e,
  forEach l (fun x => onSchemaService (method x)) e
  = (tt, Engine.mk (fold_left (fun svc x => method x svc) l (Engine.schemaService e))
                   (Engine.completer e) (Engine.hover e)
                   (Engine.yamlDocumentSymbols e) (Engine.yamlValidation e)
                   (Engine.formatter e)).
Proof.
  induction l as [| x l IH]; intros e.
  - destruct e. reflexivity.
  - cbn [forEach fold_left]. unfold mbind, Action_bind.
    unfold onSchemaService at 1, callSchemaService at 1. rewrite IH. reflexivity.
Qed.

Section ConfigureFacts.
Context {weights : ScoringWeights} {collaborators : Collaborators}.

Lemma configure_schemaService schemaRequestService workspaceContext settings e :
  Engine.schemaService
    (snd (configure (fst (getLanguageService schemaRequestService workspaceContext))
                    settings e))
  = fold_left
      (fun svc c =>
         YAMLSchemaService.registerExternalSchema (uri c) (fileMatch c) (schema c) svc)
      (default [] (schemas settings))
      (YAMLSchemaService.clearExternalSchemas (Engine.schemaService e)).
Proof.
  cbn [getLanguageService fst configure languageServiceObject].
  unfold mbind, Action_bind.
  destruct (schemas settings) as [entries |]; cbn [default].
  - unfold onSchemaService at 1, callSchemaService at 1.
    rewrite forEach_onSchemaService. reflexivity.
  - reflexivity.
Qed.

(** The objects after [configure]: the schema service cleared and given
    the entries, and each producer configured with the settings, the
    completer with the custom tags or with none. *)
Theorem configure_engine schemaRequestService workspaceContext
  (settings : LanguageSettings) (engine : Engine.t) :
  snd (configure (fst (getLanguageService schemaRequestService workspaceContext))
                 settings engine)
  = Engine.mk
      (fold_left
         (fun svc c =>
            YAMLSchemaService.registerExternalSchema (uri c) (fileMatch c) (schema c) svc)
         (default [] (schemas settings))
         (YAMLSchemaService.clearExternalSchemas (Engine.schemaService engine)))
      (YAMLCompletion.configure settings (default [] (customTags settings))
                                (Engine.completer engine))
      (YAMLHover.configure settings (Engine.hover engine))
      (Engine.yamlDocumentSymbols engine)
      (YAMLValidation.configure settings (Engine.yamlValidation engine))
      (YAMLFormatter.configure settings (Engine.formatter engine)).
Proof.
  cbn [getLanguageService fst configure languageServiceObject].
  unfold mbind, Action_bind.
  destruct (schemas settings) as [entries |]; cbn [default].
  - unfold onSchemaService at 1, callSchemaService at 1.
    rewrite forEach_onSchemaService. cbn. destruct (customTags settings); reflexivity.
  - cbn. destruct (customTags settings); reflexivity.
Qed.

(** C10.  After [configure] the schema service is the one that results
    from clearing the external schemas and then registering the entries
    of [settings.schemas] in order, none when the field is absent; its
    external associations are exactly these entries, whatever was
    registered before. *)
Theorem configure_replaces_external_schemas schemaRequestService workspaceContext
  (settings : LanguageSettings) (engine1 engine2 : Engine.t) :
  let service := fst (getLanguageService schemaRequestService workspaceContext) in
  let after engine := Engine.schemaService (snd (configure service settings engine)) in
  after engine1
  = fold_left
      (fun svc c =>
         YAMLSchemaService.registerExternalSchema (uri c) (fileMatch c) (schema c) svc)
      (default [] (schemas settings))
      (YAMLSchemaService.clearExternalSchemas (Engine.schemaService engine1))
  /\ YAMLSchemaService.externalSchemas
       (YAMLSchemaService.clearExternalSchemas (Engine.schemaService engine1)) = []
  /\ YAMLSchemaService.externalSchemas (after engine1) = default [] (schemas settings)
  /\ YAMLSchemaService.externalSchemas (after engine1)
     = YAMLSchemaService.externalSchemas (after engine2).
Proof.
  intros service after. unfold after, service.
  rewrite !configure_schemaService, !externalSchemas_register.
  repeat split; reflexivity.
Qed.

(** C7.  [resetSchema(uri)] is the schema service's resource-change
    notification for that URI: it returns its result and changes nothing
    but the schema service.  The notification drops the cached
    resolutions whose chain touched the URI, keeps every other one, tells
    whether it dropped one, and leaves the registered documents, the
    associations and the provider alone. *)
Theorem resetSchema_invalidates_dependents schemaRequestService workspaceContext
  (u : string) (engine : Engine.t) :
  let service := fst (getLanguageService schemaRequestService workspaceContext) in
  let before := Engine.schemaService engine in
  let result := fst (resetSchema service u engine) in
  let after := Engine.schemaService (snd (resetSchema service u engine)) in
  (result, after) = YAMLSchemaService.onResourceChange u before
  /\ snd (resetSchema service u engine)
     = Engine.mk after (Engine.completer engine) (Engine.hover engine)
                 (Engine.yamlDocumentSymbols engine) (Engine.yamlValidation engine)
                 (Engine.formatter engine)
  /\ (forall k r,
        YAMLSchemaService.resolvedCache before !! k = Some r ->
        u ∉ rsTouched r ->
        YAMLSchemaService.resolvedCache after !! k = Some r)
  /\ (forall k r,
        YAMLSchemaService.resolvedCache before !! k = Some r ->
        u ∈ rsTouched r ->
        YAMLSchemaService.resolvedCache after !! k = None)
  /\ (forall k,
        YAMLSchemaService.resolvedCache before !! k = None ->
        YAMLSchemaService.resolvedCache after !! k = None)
  /\ (result = true <->
      exists k r, YAMLSchemaService.resolvedCache before !! k = Some r
                  /\ u ∈ rsTouched r)
  /\ YAMLSchemaService.registeredSchemas after = YAMLSchemaService.registeredSchemas before
  /\ YAMLSchemaService.externalSchemas after = YAMLSchemaService.externalSchemas before
  /\ YAMLSchemaService.customSchemaProvider after
     = YAMLSchemaService.customSchemaProvider before.
Proof.
  cbn. repeat split; try reflexivity.
  - intros k r Hk Hu. unfold YAMLSchemaService.invalidate.
    apply map_lookup_filter_Some. split; [exact Hk | exact Hu].
  - intros k r Hk Hu. unfold YAMLSchemaService.invalidate.
    apply map_lookup_filter_None. right. intros r' Hk' Hn.
    rewrite Hk in Hk'. inversion Hk'; subst. cbn in Hn. contradiction.
  - intros k Hk. unfold YAMLSchemaService.invalidate.
    apply map_lookup_filter_None. left. exact Hk.
  - intros Hex. apply existsb_exists in Hex as [[k r] [Hin Hb]].
    exists k, r. split.
    + apply elem_of_map_to_list, list_elem_of_In. exact Hin.
    + apply bool_decide_eq_true in Hb. exact Hb.
  - intros (k & r & Hk & Hu). apply existsb_exists. exists (k, r). split.
    + apply list_elem_of_In, elem_of_map_to_list. exact Hk.
    + apply bool_decide_eq_true. exact Hu.
Qed.

End ConfigureFacts.

(* ================================================================== *)
(** * Several services in one process *)
(* ================================================================== *)

Section HostFacts.
Context {weights : ScoringWeights} {collaborators : Collaborators}.




End HostFacts.

(* ================================================================== *)
(** * Reference cycles *)
(* ================================================================== *)



(** The sample schema refers to itself: its resolution is the schema with
    the placeholder where the reference was, one note, and no error. *)
Example listDocument_resolved :
  exists r, resolve listDocument sampleStore = Some r
    /\ rsSchema r
       = JObj [ ("type", JStr "object");
                ("properties",
                 JObj [ ("value", JObj [("type", JStr "number")]);
                        ("next", JCircular "list.json" []) ]) ]
    /\ rsNotes r = [CircularReference "list.json" []]
    /\ rsErrors r = [].
Proof.
  destruct (resolve listDocument sampleStore) as [r |] eqn:Hr.
  - exists r. split; [reflexivity |].
    vm_compute in Hr. inversion Hr; subst r. repeat split; reflexivity.
  - vm_compute in Hr. discriminate Hr.
Qed.

(** A cycle through two documents: the forest is resolved inside the
    tree, and its reference back to the tree is the placeholder. *)
Example treeDocument_resolved :
  exists r, resolve treeDocument forestStore = Some r
    /\ rsSchema r
       = JObj [ ("properties",
                 JObj [ ("children",
                         JObj [("items", JCircular "tree.json" [])]) ]) ]
    /\ rsNotes r = [CircularReference "tree.json" []]
    /\ rsErrors r = []
    /\ rsTouched r = {[ "tree.json"; "forest.json" ]}.
Proof.
  destruct (resolve treeDocument forestStore) as [r |] eqn:Hr.
  - exists r. split; [reflexivity |].
    vm_compute in Hr. inversion Hr; subst r. cbn [rsSchema rsNotes rsTouched].
    repeat split; reflexivity.
  - vm_compute in Hr. discriminate Hr.
Qed.


(* ================================================================== *)
(** * Structural checks *)
(* ================================================================== *)




Section ValidationFacts.
Context {weights : ScoringWeights} {collaborators : Collaborators}.


End ValidationFacts.


(* ================================================================== *)
(** * Selection among alternatives *)
(* ================================================================== *)

Section SelectionFacts.
Context {weights : ScoringWeights}.

Lemma bestOf_step seen best r :
  bestOf seen best ->
  bestOf (seen ++ [r])
         (if (score (snd best) <? score r)%Z then (length seen, r) else best).
Proof.
  intros (Hat & Hmax & Hfirst).
  destruct (score (snd best) <? score r)%Z eqn:Hlt.
  - apply Z.ltb_lt in Hlt. repeat split; cbn [fst snd].
    + apply list_lookup_middle. reflexivity.
    + intros j r' Hj. apply lookup_app_Some in Hj as [Hj | [Hlen Hj]].
      * specialize (Hmax _ _ Hj). lia.
      * destruct (j - length seen) as [| k] eqn:Hk; cbn in Hj; [| destruct k; discriminate].
        inversion Hj; subst. lia.
    + intros j r' Hlen Hj. rewrite lookup_app_l in Hj by lia.
      specialize (Hmax _ _ Hj). lia.
  - apply Z.ltb_ge in Hlt. repeat split.
    + apply lookup_app_l_Some. exact Hat.
    + intros j r' Hj. apply lookup_app_Some in Hj as [Hj | [Hlen Hj]].
      * exact (Hmax _ _ Hj).
      * destruct (j - length seen) as [| k] eqn:Hk; cbn in Hj; [| destruct k; discriminate].
        inversion Hj; subst. exact Hlt.
    + intros j r' Hlen Hj. apply lookup_lt_Some in Hat as Hb.
      rewrite lookup_app_l in Hj by lia. exact (Hfirst _ _ Hlen Hj).
Qed.

Lemma scanBest_bestOf rest : forall seen best,
  bestOf seen best -> bestOf (seen ++ rest) (scanBest best (length seen) rest).
Proof.
  induction rest as [| r rest IH]; intros seen best Hbest; cbn [scanBest].
  - rewrite app_nil_r. exact Hbest.
  - replace (seen ++ r :: rest) with ((seen ++ [r]) ++ rest)
      by (rewrite <- app_assoc; reflexivity).
    replace (S (length seen)) with (length (seen ++ [r]))
      by (rewrite length_app; cbn; lia).
    apply IH, bestOf_step, Hbest.
Qed.

Lemma selectBest_bestOf rs selected :
  selectBest rs = Some selected -> bestOf rs selected.
Proof.
  destruct rs as [| r rest]; [discriminate |]. cbn [selectBest]. intros Hsel.
  inversion Hsel; subst selected.
  apply (scanBest_bestOf rest [r] (0, r)).
  repeat split; cbn [fst snd].
  - intros [| j] r' Hj; cbn in Hj; [inversion Hj; lia | discriminate].
  - intros j r' Hj. lia.
Qed.

Lemma selectBest_some rs : rs <> [] -> exists selected, selectBest rs = Some selected.
Proof. destruct rs; [congruence |]. intros _. eexists. reflexivity. Qed.

(** C4, as amended.  The results of the branches of an [anyOf] or
    [oneOf] are those of matching each branch alone against the node.
    The selected branch is one that scores highest, and the first of
    them in declaration order.  The problems surfaced are the problems of
    the selected branch, to which [oneOf] adds its one problem when more
    than one branch matches with no problem; the problems of the other
    branches are kept aside and none of them is surfaced. *)
Theorem alternatives_select_first_best (branches : list JSONSchema)
  (path : list Segment) (n : DocumentNode) (exclusive : bool) :
  let results := map (fun b => matchNode b path n) branches in
  let composed := matchAlternatives exclusive (nodeRange n) results in
  (forall fields,
     matchKeyword matchNode fields "anyOf" (JArr branches) path n
     = matchAlternatives false (nodeRange n) results
     /\ matchKeyword matchNode fields "oneOf" (JArr branches) path n
        = matchAlternatives true (nodeRange n) results)
  /\ matchNode (JObj [("oneOf", JArr branches)]) path n
     = mergeResults (mkMatchResult [] 0 [(path, JObj [("oneOf", JArr branches)])] [])
         (mergeResults (matchAlternatives true (nodeRange n) results) emptyMatch)
  /\ (branches <> [] -> exists i best, selectBest results = Some (i, best))
  /\ (forall i best,
        selectBest results = Some (i, best) ->
        results !! i = Some best
        /\ (forall j r, results !! j = Some r -> (score r <= score best)%Z)
        /\ (forall j r, j < i -> results !! j = Some r -> (score r < score best)%Z)
        /\ mrProblems composed
           = mrProblems best
             ++ (if exclusive
                    && Nat.ltb 1 (length (filter (fun r => zeroProblem r = true) results))
                 then [mkProblem AmbiguousUnion (nodeRange n)
                         "Matches multiple schemas when only one must validate"]
                 else [])
        /\ (exclusive = false -> mrProblems composed = mrProblems best)
        /\ mrSuppressed composed = mrSuppressed best ++ rejectedProblems i results).
Proof.
  intros results composed. split; [intros fields; split; reflexivity |].
  split; [reflexivity |].
  split.
  - intros Hne. destruct (selectBest_some results) as [[i best] Hsel].
    + unfold results. destruct branches; [congruence | discriminate].
    + exists i, best. exact Hsel.
  - intros i best Hsel.
    destruct (selectBest_bestOf _ _ Hsel) as (Hat & Hmax & Hfirst). cbn [fst snd] in *.
    split; [exact Hat |]. split; [exact Hmax |]. split; [exact Hfirst |].
    unfold composed, matchAlternatives. rewrite Hsel. cbn [mrProblems mrSuppressed].
    split; [reflexivity |]. split; [| reflexivity].
    intros ->. cbn. apply app_nil_r.
Qed.

End SelectionFacts.

(** C4, as stated, fails for [oneOf]: both branches match the node with
    no problem, the first is selected, and the problem surfaced is not
    one of its problems. *)
Lemma oneOf_surfaces_a_problem_of_its_own :
  @selectBest sampleWeights
    (map (fun b => @matchNode sampleWeights b [] (Scalar (mkRange 0 4) None (VBool true)))
         [JObj []; JObj []])
  = Some (0, mkMatchResult [] 0 [([], JObj [])] [])
  /\ mrProblems
       (@matchNode sampleWeights (JObj [("oneOf", JArr [JObj []; JObj []])]) []
          (Scalar (mkRange 0 4) None (VBool true)))
     = [mkProblem AmbiguousUnion (mkRange 0 4)
          "Matches multiple schemas when only one must validate"].
Proof. split; reflexivity. Qed.

Lemma alternatives_select_first_best_witness :
  let results :=
    map (fun b => @matchNode sampleWeights b [] (Scalar (mkRange 0 4) None (VStr "a")))
        [ JObj [("type", JStr "number")]; JObj [("type", JStr "string")];
          JObj [("type", JStr "string"); ("enum", JArr [JStr "a"])] ] in
  results !! 1 = Some (mkMatchResult [] 0 [([], JObj [("type", JStr "string")])] [])
  /\ mrProblems (@matchAlternatives sampleWeights false (mkRange 0 4) results) = [].
Proof.
  intros results.
  destruct (@alternatives_select_first_best sampleWeights
              [ JObj [("type", JStr "number")]; JObj [("type", JStr "string")];
                JObj [("type", JStr "string"); ("enum", JArr [JStr "a"])] ]
              [] (Scalar (mkRange 0 4) None (VStr "a")) false)
    as (_ & _ & _ & Hsel).
  destruct (Hsel 1 (mkMatchResult [] 0 [([], JObj [("type", JStr "string")])] []) eq_refl)
    as (Hat & _ & _ & _ & Hproblems & _).
  split; [exact Hat | exact (Hproblems eq_refl)].
Defined.

(* ================================================================== *)
(** * Unavailable schemas *)
(* ================================================================== *)

(** ** Sub-nodes *)








(** ** Where the problems of a match stand *)












Section PlacementFacts.
Context {weights : ScoringWeights}.






End PlacementFacts.

(** ** The members fulfil *)

Section FetchFailureFacts.
Context {weights : ScoringWeights} {collaborators : Collaborators}.






End FetchFailureFacts.

(** The sample document against the sample settings: the schema that
    cannot be fetched costs one diagnostic of the lowest severity, and
    the schema that can be fetched is resolved and cached. *)
Example sampleText_validation :
  fst (doValidation sampleService sampleText false sampleEngine)
  = Fulfilled
      [ mkDiagnostic (mkRange 0 30) SeverityInformation UnavailableSchema
          "Unable to load schema from missing.json: Unable to load missing.json" ]
  /\ YAMLSchemaService.resolvedCache (Engine.schemaService sampleEngineValidated)
       !! "list.json" = Some listResolved
  /\ YAMLSchemaService.resolvedCache (Engine.schemaService sampleEngineValidated)
       !! "missing.json" = None.
Proof. repeat split; vm_compute; reflexivity. Qed.


Lemma resetSchema_invalidates_dependents_witness :
  fst (resetSchema sampleService "missing.json" sampleEngineValidated) = false
  /\ YAMLSchemaService.resolvedCache
       (Engine.schemaService
          (snd (resetSchema sampleService "missing.json" sampleEngineValidated)))
       !! "list.json" = Some listResolved
  /\ YAMLSchemaService.resolvedCache
       (Engine.schemaService
          (snd (resetSchema sampleService "list.json" sampleEngineValidated)))
       !! "list.json" = None.
Proof.
  split; [vm_compute; reflexivity |]. split.
  - destruct (@resetSchema_invalidates_dependents sampleWeights sampleCollaborators
                sampleRequestService sampleWorkspace "missing.json" sampleEngineValidated)
      as (_ & _ & Hkeep & _).
    apply Hkeep.
    + vm_compute. reflexivity.
    + cbn [listResolved rsTouched]. set_solver.
  - destruct (@resetSchema_invalidates_dependents sampleWeights sampleCollaborators
                sampleRequestService sampleWorkspace "list.json" sampleEngineValidated)
      as (_ & _ & _ & Hdrop & _).
    apply (Hdrop "list.json" listResolved).
    + vm_compute. reflexivity.
    + cbn [listResolved rsTouched]. set_solver.
Defined.

(* ================================================================== *)
(** * What a member reaches *)
(* ================================================================== *)

Section ReachFacts.
Context {weights : ScoringWeights} {collaborators : Collaborators}.

Lemma configure_pair schemaRequestService workspaceContext settings e :
  configure (fst (getLanguageService schemaRequestService workspaceContext)) settings e
  = (tt,
     Engine.mk
       (fold_left
          (fun svc c =>
             YAMLSchemaService.registerExternalSchema (uri c) (fileMatch c) (schema c) svc)
          (default [] (schemas settings))
          (YAMLSchemaService.clearExternalSchemas (Engine.schemaService e)))
       (YAMLCompletion.configure settings (default [] (customTags settings))
                                 (Engine.completer e))
       (YAMLHover.configure settings (Engine.hover e))
       (Engine.yamlDocumentSymbols e)
       (YAMLValidation.configure settings (Engine.yamlValidation e))
       (YAMLFormatter.configure settings (Engine.formatter e))).
Proof.
  cbn [getLanguageService fst configure languageServiceObject].
  unfold mbind, Action_bind.
  destruct (schemas settings) as [entries |]; cbn [default].
  - unfold onSchemaService at 1, callSchemaService at 1.
    rewrite forEach_onSchemaService. cbn. destruct (customTags settings); reflexivity.
  - cbn. destruct (customTags settings); reflexivity.
Qed.

Lemma callSchemaService_eq {A : Type}
  (method : YAMLSchemaService.t -> A * YAMLSchemaService.t) e :
  callSchemaService method e
  = (fst (method (Engine.schemaService e)),
     Engine.mk (snd (method (Engine.schemaService e)))
               (Engine.completer e) (Engine.hover e)
               (Engine.yamlDocumentSymbols e) (Engine.yamlValidation e)
               (Engine.formatter e)).
Proof.
  unfold callSchemaService. destruct (method (Engine.schemaService e)). reflexivity.
Qed.

Lemma fmap_eq {A B : Type} (f : A -> B) (m : Action A) e :
  (f <$> m) e = (f (fst (m e)), snd (m e)).
Proof. unfold fmap, Action_fmap. destruct (m e). reflexivity. Qed.

Lemma bind_eq {A B : Type} (m : Action A) (k : A -> Action B) e :
  (m ≫= k) e = k (fst (m e)) (snd (m e)).
Proof. unfold mbind, Action_bind. destruct (m e). reflexivity. Qed.

(** Every call, as a pair of what it returns and the objects after it. *)
Lemma perform_eq schemaRequestService workspaceContext call e :
  perform (fst (getLanguageService schemaRequestService workspaceContext)) call e
  = match call with
    | CallConfigure settings =>
        (ReturnedNothing,
         snd (configure (fst (getLanguageService schemaRequestService workspaceContext))
                        settings e))
    | CallRegisterCustomSchemaProvider schemaProvider =>
        (ReturnedNothing,
         Engine.mk (YAMLSchemaService.registerCustomSchemaProvider schemaProvider
                      (Engine.schemaService e))
                   (Engine.completer e) (Engine.hover e)
                   (Engine.yamlDocumentSymbols e) (Engine.yamlValidation e)
                   (Engine.formatter e))
    | CallDoComplete document position kubernetes =>
        let r := YAMLCompletion.doComplete (Engine.completer e) document position
                   kubernetes (Engine.schemaService e) in
        (ReturnedCompletion (fst r),
         Engine.mk (snd r) (Engine.completer e) (Engine.hover e)
                   (Engine.yamlDocumentSymbols e) (Engine.yamlValidation e)
                   (Engine.formatter e))
    | CallDoValidation document kubernetes =>
        let r := YAMLValidation.doValidation (Engine.yamlValidation e) document
                   kubernetes (Engine.schemaService e) in
        (ReturnedDiagnostics (fst r),
         Engine.mk (snd r) (Engine.completer e) (Engine.hover e)
                   (Engine.yamlDocumentSymbols e) (Engine.yamlValidation e)
                   (Engine.formatter e))
    | CallDoHover document position =>
        let r := YAMLHover.doHover (Engine.hover e) document position
                   (Engine.schemaService e) in
        (ReturnedHover (fst r),
         Engine.mk (snd r) (Engine.completer e) (Engine.hover e)
                   (Engine.yamlDocumentSymbols e) (Engine.yamlValidation e)
                   (Engine.formatter e))
    | CallFindDocumentSymbols document =>
        (ReturnedSymbols
           (YAMLDocumentSymbols.findDocumentSymbols (Engine.schemaService e)
              (Engine.yamlDocumentSymbols e) document), e)
    | CallFindDocumentSymbols2 document =>
        (ReturnedSymbols2
           (YAMLDocumentSymbols.findHierarchicalDocumentSymbols (Engine.schemaService e)
              (Engine.yamlDocumentSymbols e) document), e)
    | CallFindDefinition _ _ _ => (ReturnedDefinition (Fulfilled []), e)
    | CallFindLinks document => (ReturnedLinks (yamlLinks document), e)
    | CallResetSchema u =>
        let r := YAMLSchemaService.onResourceChange u (Engine.schemaService e) in
        (ReturnedFlag (fst r),
         Engine.mk (snd r) (Engine.completer e) (Engine.hover e)
                   (Engine.yamlDocumentSymbols e) (Engine.yamlValidation e)
                   (Engine.formatter e))
    | CallDoFormat document options =>
        (ReturnedEdits (YAMLFormatter.format (Engine.formatter e) document options), e)
    | CallAddSchema schemaID content =>
        (ReturnedNothing,
         Engine.mk (YAMLSchemaService.saveSchema schemaID content (Engine.schemaService e))
                   (Engine.completer e) (Engine.hover e)
                   (Engine.yamlDocumentSymbols e) (Engine.yamlValidation e)
                   (Engine.formatter e))
    | CallDeleteSchema schemaID =>
        (ReturnedNothing,
         Engine.mk (YAMLSchemaService.deleteSchema schemaID (Engine.schemaService e))
                   (Engine.completer e) (Engine.hover e)
                   (Engine.yamlDocumentSymbols e) (Engine.yamlValidation e)
                   (Engine.formatter e))
    | CallModifySchemaContent schemaAdditions =>
        (ReturnedNothing,
         Engine.mk (YAMLSchemaService.addContent schemaAdditions (Engine.schemaService e))
                   (Engine.completer e) (Engine.hover e)
                   (Engine.yamlDocumentSymbols e) (Engine.yamlValidation e)
                   (Engine.formatter e))
    | CallDeleteSchemaContent schemaDeletions =>
        (ReturnedNothing,
         Engine.mk (YAMLSchemaService.deleteContent schemaDeletions
                      (Engine.schemaService e))
                   (Engine.completer e) (Engine.hover e)
                   (Engine.yamlDocumentSymbols e) (Engine.yamlValidation e)
                   (Engine.formatter e))
    end.
Proof.
  destruct call; cbn [perform getLanguageService fst languageServiceObject
       configure registerCustomSchemaProvider doComplete doValidation doHover
       findDocumentSymbols findDocumentSymbols2 findDefinition findLinks
       resetSchema doFormat addSchema deleteSchema modifySchemaContent
       deleteSchemaContent];
    rewrite ?fmap_eq, ?bind_eq; unfold onSchemaService, reading;
    rewrite ?bind_eq, ?callSchemaService_eq; reflexivity.
Qed.

Lemma perform_frame schemaRequestService workspaceContext call x e :
  ~ In x (reaches call) ->
  agreeOn x e
    (snd (perform (fst (getLanguageService schemaRequestService workspaceContext))
                  call e)).
Proof.
  intros Hx. rewrite perform_eq.
  destruct call; try rewrite configure_pair;
    destruct x; cbn; try reflexivity; exfalso; apply Hx; cbn; tauto.
Qed.

Lemma agreeOn_refl x e : agreeOn x e e.
Proof. destruct x; reflexivity. Qed.

Lemma agreeOn_trans x e1 e2 e3 : agreeOn x e1 e2 -> agreeOn x e2 e3 -> agreeOn x e1 e3.
Proof. destruct x; cbn; congruence. Qed.

Lemma session_cons service call rest e :
  session service (call :: rest) e
  = (fst (perform service call e)
       :: fst (session service rest (snd (perform service call e))),
     snd (session service rest (snd (perform service call e)))).
Proof.
  cbn [session]. rewrite !bind_eq. cbn. reflexivity.
Qed.

Lemma session_frame schemaRequestService workspaceContext calls x : forall e,
  (forall c, In c calls -> ~ In x (reaches c)) ->
  agreeOn x e
    (snd (session (fst (getLanguageService schemaRequestService workspaceContext))
                  calls e)).
Proof.
  induction calls as [| call rest IH]; intros e Hx.
  - apply agreeOn_refl.
  - rewrite session_cons. cbn [snd].
    eapply agreeOn_trans.
    + apply (perform_frame schemaRequestService workspaceContext call x e).
      apply Hx. left. reflexivity.
    + apply IH. intros c Hc. apply Hx. right. exact Hc.
Qed.

Lemma perform_reads schemaRequestService workspaceContext call e1 e2 :
  (forall x, In x (reaches call) -> agreeOn x e1 e2) ->
  let service := fst (getLanguageService schemaRequestService workspaceContext) in
  fst (perform service call e1) = fst (perform service call e2)
  /\ forall x, In x (reaches call) ->
       agreeOn x (snd (perform service call e1)) (snd (perform service call e2)).
Proof.
  intros H service. unfold service. rewrite !perform_eq.
  destruct call; cbn [reaches] in H;
    try (assert (Hs := H TheSchemaService ltac:(cbn; tauto)); cbn in Hs);
    try (assert (Hc := H TheCompleter ltac:(cbn; tauto)); cbn in Hc);
    try (assert (Hh := H TheHover ltac:(cbn; tauto)); cbn in Hh);
    try (assert (Hd := H TheDocumentSymbols ltac:(cbn; tauto)); cbn in Hd);
    try (assert (Hv := H TheValidation ltac:(cbn; tauto)); cbn in Hv);
    try (assert (Hf := H TheFormatter ltac:(cbn; tauto)); cbn in Hf);
    rewrite ?configure_pair; cbn [fst snd];
    rewrite ?Hs, ?Hc, ?Hh, ?Hd, ?Hv, ?Hf;
    (split; [reflexivity |]);
    intros x Hin; destruct x; cbn in Hin |- *;
    rewrite ?Hs, ?Hc, ?Hh, ?Hd, ?Hv, ?Hf;
    try reflexivity; exfalso; intuition discriminate.
Qed.

(** A call changes none of the captured objects its member cannot reach,
    and neither does a session none of whose calls can reach it. *)
Theorem calls_change_only_what_they_reach schemaRequestService workspaceContext
  (calls : list MemberCall) (x : Captured) (e : Engine.t) :
  (forall c, In c calls -> ~ In x (reaches c)) ->
  let service := fst (getLanguageService schemaRequestService workspaceContext) in
  agreeOn x e (snd (session service calls e))
  /\ forall c, In c calls -> forall e', agreeOn x e' (snd (perform service c e')).
Proof.
  intros Hx service. split.
  - apply session_frame. exact Hx.
  - intros c Hc e'. apply perform_frame. apply Hx. exact Hc.
Qed.

(** What a call returns, and what it leaves in the objects its member
    can reach, depends on those objects alone. *)
Theorem results_depend_only_on_what_is_reached schemaRequestService workspaceContext
  (call : MemberCall) (e1 e2 : Engine.t) :
  (forall x, In x (reaches call) -> agreeOn x e1 e2) ->
  let service := fst (getLanguageService schemaRequestService workspaceContext) in
  fst (perform service call e1) = fst (perform service call e2)
  /\ forall x, In x (reaches call) ->
       agreeOn x (snd (perform service call e1)) (snd (perform service call e2)).
Proof. apply perform_reads. Qed.

(** A call returns what it would have returned before a session none of
    whose calls can reach an object the call's member can reach. *)
Theorem unreached_calls_keep_results schemaRequestService workspaceContext
  (calls : list MemberCall) (call : MemberCall) (e : Engine.t) :
  (forall c x, In c calls -> In x (reaches call) -> ~ In x (reaches c)) ->
  let service := fst (getLanguageService schemaRequestService workspaceContext) in
  fst (perform service call (snd (session service calls e)))
  = fst (perform service call e).
Proof.
  intros Hx service. symmetry.
  apply (perform_reads schemaRequestService workspaceContext call).
  intros x Hin. apply session_frame. intros c Hc. apply (Hx c x Hc Hin).
Qed.

End ReachFacts.

Lemma sampleSession_reaches c x :
  In c sampleSession -> In x (reaches (CallDoFormat sampleText sampleOptions)) ->
  ~ In x (reaches c).
Proof.
  intros Hc Hx. cbn in Hx. destruct Hx as [<- | []].
  cbn in Hc. destruct Hc as [<- | [<- | [<- | []]]]; cbn; intuition discriminate.
Qed.

Lemma calls_change_only_what_they_reach_witness :
  agreeOn TheFormatter sampleEngine (snd (session sampleService sampleSession sampleEngine)).
Proof.
  apply (proj1 (@calls_change_only_what_they_reach sampleWeights sampleCollaborators
                  sampleRequestService sampleWorkspace sampleSession TheFormatter
                  sampleEngine
                  (fun c Hc => sampleSession_reaches c TheFormatter Hc
                                 (or_introl eq_refl)))).
Defined.

Lemma results_depend_only_on_what_is_reached_witness :
  fst (perform sampleService (CallDoFormat sampleText sampleOptions) sampleEngine)
  = fst (perform sampleService (CallDoFormat sampleText sampleOptions)
                 sampleEngineValidated).
Proof.
  apply (proj1 (@results_depend_only_on_what_is_reached sampleWeights sampleCollaborators
                  sampleRequestService sampleWorkspace
                  (CallDoFormat sampleText sampleOptions)
                  sampleEngine sampleEngineValidated
                  (fun x Hx => match Hx with
                               | or_introl Heq =>
                                   eq_ind TheFormatter
                                     (fun y => agreeOn y sampleEngine sampleEngineValidated)
                                     eq_refl x Heq
                               | or_intror Hfalse => False_ind _ Hfalse
                               end))).
Defined.

Lemma unreached_calls_keep_results_witness :
  fst (perform sampleService (CallDoFormat sampleText sampleOptions)
               (snd (session sampleService sampleSession sampleEngine)))
  = fst (perform sampleService (CallDoFormat sampleText sampleOptions) sampleEngine).
Proof.
  apply (@unreached_calls_keep_results sampleWeights sampleCollaborators
           sampleRequestService sampleWorkspace sampleSession
           (CallDoFormat sampleText sampleOptions) sampleEngine
           sampleSession_reaches).
Defined.

(* ================================================================== *)
(** * Sessions of several services *)
(* ================================================================== *)



Section InterleavingFacts.
Context {weights : ScoringWeights} {collaborators : Collaborators}.


End InterleavingFacts.
